(** * sqlcipher page codec (src/crypto.c): a shallow embedding and its properties

    The codec sits between SQLite's pager and the database file.  Every page
    is run through [sqlite3Codec] on its way to and from disk; page 1 keeps a
    24 byte clear header whose first 16 bytes carry the random salt of the
    file.  This development embeds [codec_page_hash], [codec_passphrase_hash],
    [codec_cipher], [sqlite3Codec], [sqlite3CodecAttach], [sqlite3_key] and
    [sqlite3_rekey] and states the properties of the design document over
    them.

    Conventions.
    - C [int]s and [Pgno]s are [Z]; buffers are [list byte]; a pointer
      argument is the buffer it points into together with an offset.
    - A C function that may trip an [assert] or touch memory outside a buffer
      returns a [result]; a function that updates memory is a state
      transformer over the memory it can reach.  The [assert]s of the source
      are taken as compiled in.
    - OpenSSL and the constants of crypto.h / sqliteInt.h are not part of
      crypto.c: they are collected in the interface [Scheme]. *)

From Stdlib Require Import Strings.String.
From Stdlib Require Import List ZArith Lia Bool Strings.Byte.
Import ListNotations.

Local Open Scope Z_scope.

(** ** Bytes and buffers *)

Definition bytes := list byte.

Definition byte_xor (a b : byte) : byte :=
  let '(a0, (a1, (a2, (a3, (a4, (a5, (a6, a7))))))) := Byte.to_bits a in
  let '(b0, (b1, (b2, (b3, (b4, (b5, (b6, b7))))))) := Byte.to_bits b in
  Byte.of_bits (xorb a0 b0, (xorb a1 b1, (xorb a2 b2, (xorb a3 b3,
               (xorb a4 b4, (xorb a5 b5, (xorb a6 b6, xorb a7 b7))))))).

(** Bytewise exclusive or; the result is as long as the shorter operand. *)
Fixpoint xor_bytes (a b : bytes) : bytes :=
  match a, b with
  | x :: a', y :: b' => byte_xor x y :: xor_bytes a' b'
  | _, _ => []
  end.

(** The value of a C [unsigned char] computed in a wider type. *)
Definition byte_of_N (n : N) : byte :=
  match Byte.of_N (n mod 256)%N with
  | Some b => b
  | None => "000"%byte
  end.

Definition len (b : bytes) : Z := Z.of_nat (length b).

(** ** Results of C code that can stop *)

Inductive fault : Type :=
| AssertionFailed   (* an [assert] of the source does not hold *)
| OutOfBounds.      (* a read or write outside the buffer it is aimed at *)

Inductive result (A : Type) : Type :=
| Ok (a : A)
| Crash (f : fault).
Arguments Ok {A} a.
Arguments Crash {A} f.

Definition rbind {A B} (r : result A) (k : A -> result B) : result B :=
  match r with
  | Ok a => k a
  | Crash f => Crash f
  end.

(** State transformers over a memory [St] that can stop. *)
Definition M (St A : Type) : Type := St -> result (A * St).

Definition ret {St A} (a : A) : M St A := fun s => Ok (a, s).
Definition bind {St A B} (m : M St A) (k : A -> M St B) : M St B :=
  fun s => match m s with
           | Ok (a, s') => k a s'
           | Crash f => Crash f
           end.
Definition gets {St A} (f : St -> A) : M St A := fun s => Ok (f s, s).
Definition modify {St} (f : St -> St) : M St unit := fun s => Ok (tt, f s).
Definition lift {St A} (r : result A) : M St A :=
  fun s => match r with Ok a => Ok (a, s) | Crash f => Crash f end.
Definition assert {St} (b : bool) : M St unit :=
  fun s => if b then Ok (tt, s) else Crash AssertionFailed.

Declare Scope codec_scope.
Delimit Scope codec_scope with codec.
Notation "x <- m ;; k" := (bind m (fun x => k))
  (at level 61, m at next level, right associativity) : codec_scope.
Notation "m ;; k" := (bind m (fun _ => k))
  (at level 61, right associativity) : codec_scope.
Notation "' p <- m ;; k" := (bind m (fun p => k))
  (at level 61, p pattern, m at next level, right associativity) : codec_scope.
Local Open Scope codec_scope.

(** [read b off n]: the [n] bytes of [b] from offset [off]. *)
Definition read (b : bytes) (off n : Z) : result bytes :=
  if (0 <=? off) && (0 <=? n) && (off + n <=? len b)
  then Ok (firstn (Z.to_nat n) (skipn (Z.to_nat off) b))
  else Crash OutOfBounds.

(** [write b off d]: [b] with the bytes [d] stored from offset [off]. *)
Definition write (b : bytes) (off : Z) (d : bytes) : result bytes :=
  if (0 <=? off) && (off + len d <=? len b)
  then Ok (firstn (Z.to_nat off) b ++ d ++ skipn (Z.to_nat (off + len d)) b)
  else Crash OutOfBounds.

(** ** What crypto.c takes from its headers and from OpenSSL

    [DIGEST] and [CIPHER] are macros of crypto.h, [HDR_SZ] too,
    [SQLITE_FILE_HEADER] comes from sqliteInt.h and [Pgno] from the pager.
    The digest is a function of the bytes fed to it; the cipher is a block
    cipher, used below in CBC mode without padding. *)
Class Scheme : Type := {
  DIGEST : bytes -> bytes;            (* EVP digest of the absorbed bytes *)
  EVP_CIPHER_key_length : Z;          (* key length of CIPHER *)
  EVP_CIPHER_block_size : Z;          (* block (and IV) length of CIPHER *)
  block_encrypt : bytes -> bytes -> bytes;  (* key, block *)
  block_decrypt : bytes -> bytes -> bytes;  (* key, block *)
  Pgno_bytes : Z -> bytes;            (* the sizeof(Pgno) bytes at &pgno *)
  SQLITE_FILE_HEADER : bytes          (* the magic string of sqliteInt.h *)
}.

(** The assumptions on a scheme that the theorems name when they need them. *)
Class SchemeLaws (Sch : Scheme) : Prop := {
  block_size_pos : 0 < EVP_CIPHER_block_size;
  key_length_nonneg : 0 <= EVP_CIPHER_key_length;
  block_encrypt_length : forall k b,
    len k = EVP_CIPHER_key_length -> len b = EVP_CIPHER_block_size ->
    len (block_encrypt k b) = EVP_CIPHER_block_size;
  block_decrypt_length : forall k b,
    len k = EVP_CIPHER_key_length -> len b = EVP_CIPHER_block_size ->
    len (block_decrypt k b) = EVP_CIPHER_block_size;
  block_decrypt_encrypt : forall k b,
    len k = EVP_CIPHER_key_length -> len b = EVP_CIPHER_block_size ->
    block_decrypt k (block_encrypt k b) = b;
  DIGEST_covers_iv : forall m, EVP_CIPHER_block_size <= len (DIGEST m);
  SQLITE_FILE_HEADER_length : 16 <= len SQLITE_FILE_HEADER
}.

(** Modelled from the spec: [HDR_SZ] is a macro of crypto.h.  Section 4.4 has
    the first 24 bytes of page 1 as the clear region, and the source comments
    its use with "duplicate first 24 bytes of page 1". *)
Definition HDR_SZ : Z := 24.

Section Codec.
Context {Sch : Scheme}.

(** ** OpenSSL's EVP interface, as far as crypto.c drives it *)

(** A digest context is the sequence of bytes absorbed so far. *)
Definition EVP_MD_CTX : Type := bytes.

Definition EVP_DigestInit_ex : EVP_MD_CTX := [].

Definition EVP_DigestUpdate (mdctx : EVP_MD_CTX) (d : bytes) (cnt : Z)
  : result EVP_MD_CTX :=
  rbind (read d 0 cnt) (fun x => Ok (mdctx ++ x)).

(** Returns the digest value and its size [md_sz]. *)
Definition EVP_DigestFinal_ex (mdctx : EVP_MD_CTX) : bytes * Z :=
  (DIGEST mdctx, len (DIGEST mdctx)).

(** Modelled from the spec: the CIPHER macro lives in crypto.h; section 4.3
    says the source uses a block cipher in CBC mode with padding disabled.
    [cbc_encrypt n k prev d] chains the first [n] blocks of [d]. *)
Fixpoint cbc_encrypt (n : nat) (k prev d : bytes) : bytes :=
  match n with
  | O => []
  | S n' =>
      let bs := Z.to_nat EVP_CIPHER_block_size in
      let c := block_encrypt k (xor_bytes (firstn bs d) prev) in
      c ++ cbc_encrypt n' k c (skipn bs d)
  end.

Fixpoint cbc_decrypt (n : nat) (k prev d : bytes) : bytes :=
  match n with
  | O => []
  | S n' =>
      let bs := Z.to_nat EVP_CIPHER_block_size in
      let c := firstn bs d in
      xor_bytes (block_decrypt k c) prev ++ cbc_decrypt n' k c (skipn bs d)
  end.

(** A cipher context after the two [EVP_CipherInit] calls and
    [EVP_CIPHER_CTX_set_padding(&ectx, 0)]: direction, key, IV, and the
    number of input bytes held back because they do not fill a block. *)
Record EVP_CIPHER_CTX : Type := {
  ectx_encrypt : bool;
  ectx_key : bytes;
  ectx_iv : bytes;
  ectx_buf_len : Z
}.

(** [EVP_CipherInit] reads the key and the IV in the lengths of CIPHER. *)
Definition EVP_CipherInit (key iv : bytes) (enc : bool)
  : result EVP_CIPHER_CTX :=
  rbind (read key 0 EVP_CIPHER_key_length) (fun k =>
  rbind (read iv 0 EVP_CIPHER_block_size) (fun v =>
  Ok {| ectx_encrypt := enc; ectx_key := k; ectx_iv := v;
        ectx_buf_len := 0 |})).

(** [EVP_CipherUpdate(&ectx, out, &tmp_csz, in, size)]: the whole blocks of
    the [size] input bytes are transformed; returns the bytes produced,
    their count, and the context holding back the rest.  A [size] that is
    not positive produces nothing. *)
Definition EVP_CipherUpdate (ectx : EVP_CIPHER_CTX) (in_ : bytes) (size : Z)
  : result (bytes * Z * EVP_CIPHER_CTX) :=
  if size <=? 0 then Ok ([], 0, ectx) else
  rbind (read in_ 0 size) (fun d =>
  let n := size / EVP_CIPHER_block_size in
  let out := (if ectx_encrypt ectx then cbc_encrypt else cbc_decrypt)
               (Z.to_nat n) (ectx_key ectx) (ectx_iv ectx) d in
  Ok (out, n * EVP_CIPHER_block_size,
      {| ectx_encrypt := ectx_encrypt ectx; ectx_key := ectx_key ectx;
         ectx_iv := ectx_iv ectx;
         ectx_buf_len := size mod EVP_CIPHER_block_size |})).

(** [EVP_CipherFinal(&ectx, out, &tmp_csz)] with padding disabled: nothing
    is produced; with bytes held back the call fails and leaves [tmp_csz]
    as it was. *)
Definition EVP_CipherFinal (ectx : EVP_CIPHER_CTX) (tmp_csz : Z) : Z :=
  if ectx_buf_len ectx =? 0 then 0 else tmp_csz.

(** ** crypto.c *)

(** The part of the b-tree the codec looks at. *)
Record Btree : Type := { pageSize : Z }.

Definition sqlite3BtreeGetPageSize (p : Btree) : Z := pageSize p.

(** [codec_ctx]; the field [pKey] of the source is never written or read. *)
Record codec_ctx : Type := {
  key_sz : Z;
  pBt : Btree;
  key : bytes;
  rand : bytes;
  buffer : bytes
}.

Definition set_rand (r : bytes) (ctx : codec_ctx) : codec_ctx :=
  {| key_sz := key_sz ctx; pBt := pBt ctx; key := key ctx; rand := r;
     buffer := buffer ctx |}.

Definition set_buffer (b : bytes) (ctx : codec_ctx) : codec_ctx :=
  {| key_sz := key_sz ctx; pBt := pBt ctx; key := key ctx; rand := rand ctx;
     buffer := b |}.

(** [codec_page_hash(pgno, in, inLen, out, &outLen)]: the value written to
    [out] and [outLen]. *)
Definition codec_page_hash (pgno : Z) (in_ : bytes) (inLen : Z)
  : result (bytes * Z) :=
  let mdctx := EVP_DigestInit_ex in
  rbind (EVP_DigestUpdate mdctx in_ inLen) (fun mdctx =>
  rbind (EVP_DigestUpdate mdctx (Pgno_bytes pgno) (len (Pgno_bytes pgno)))
        (fun mdctx =>
  let '(md_value, md_sz) := EVP_DigestFinal_ex mdctx in
  Ok (md_value, md_sz))).

(** [codec_passphrase_hash(in, inLen, out, &outLen)]. *)
Definition codec_passphrase_hash (in_ : bytes) (inLen : Z)
  : result (bytes * Z) :=
  let mdctx := EVP_DigestInit_ex in
  rbind (EVP_DigestUpdate mdctx in_ inLen) (fun mdctx =>
  let '(md_value, md_sz) := EVP_DigestFinal_ex mdctx in
  Ok (md_value, md_sz)).

(** ** The vocabulary of the design document

    Section 4.2: the IV of a page is the digest of the salt followed by the
    bytes of the page number.  Section 4.3: [transform] runs the cipher over
    the whole blocks of the data under a key and an IV; the mode is [true]
    to encrypt. *)
Definition derive_iv (salt : bytes) (page_number : Z) : bytes :=
  DIGEST (salt ++ Pgno_bytes page_number).

Definition transform (k iv : bytes) (mode : bool) (d : bytes) : bytes :=
  (if mode then cbc_encrypt else cbc_decrypt)
    (Z.to_nat (len d / EVP_CIPHER_block_size)) k
    (firstn (Z.to_nat EVP_CIPHER_block_size) iv) d.

(** One run of the cipher, as [codec_cipher] sets it up. *)
Record cipher_op : Type := {
  op_encrypt : bool;
  op_key : bytes;
  op_iv : bytes;
  op_input : bytes
}.

(** The memory [sqlite3Codec] works on: the context behind [iCtx], the page
    of the caller behind [pData], and the cipher runs so far (oldest
    first).  The two buffers are distinct objects. *)
Record memory : Type := {
  m_ctx : codec_ctx;
  m_pData : bytes;
  m_evp : list cipher_op
}.

Inductive region : Type := PData | CtxBuffer | CtxRand.

(** A pointer into one of the buffers. *)
Definition pointer : Type := (region * Z)%type.

Definition region_bytes (r : region) (m : memory) : bytes :=
  match r with
  | PData => m_pData m
  | CtxBuffer => buffer (m_ctx m)
  | CtxRand => rand (m_ctx m)
  end.

Definition set_region (r : region) (b : bytes) (m : memory) : memory :=
  match r with
  | PData => {| m_ctx := m_ctx m; m_pData := b; m_evp := m_evp m |}
  | CtxBuffer =>
      {| m_ctx := set_buffer b (m_ctx m); m_pData := m_pData m;
         m_evp := m_evp m |}
  | CtxRand =>
      {| m_ctx := set_rand b (m_ctx m); m_pData := m_pData m;
         m_evp := m_evp m |}
  end.

Definition load (p : pointer) (n : Z) : M memory bytes :=
  b <- gets (region_bytes (fst p)) ;;
  lift (read b (snd p) n).

Definition store (p : pointer) (d : bytes) : M memory unit :=
  b <- gets (region_bytes (fst p)) ;;
  b' <- lift (write b (snd p) d) ;;
  modify (set_region (fst p) b').

Definition memcpy (dst src : pointer) (n : Z) : M memory unit :=
  d <- load src n ;;
  store dst d.

(** [memcpy] from a string constant. *)
Definition memcpy_const (dst : pointer) (src : bytes) (n : Z)
  : M memory unit :=
  d <- lift (read src 0 n) ;;
  store dst d.

Definition add_cipher_op (op : cipher_op) (m : memory) : memory :=
  {| m_ctx := m_ctx m; m_pData := m_pData m; m_evp := m_evp m ++ [op] |}.

Definition log_cipher (op : cipher_op) : M memory unit :=
  modify (add_cipher_op op).

(** [codec_cipher(ctx, pgno, mode, size, in, out)]; [mode] is [true] to
    encrypt ([1] in the source) and [false] to decrypt ([0]). *)
Definition codec_cipher (pgno : Z) (mode : bool) (size : Z)
  (in_ out : pointer) : M memory unit :=
  ctx <- gets m_ctx ;;
  '(iv, iv_sz) <- lift (codec_page_hash pgno (rand ctx) 16) ;;
  ectx <- lift (EVP_CipherInit (key ctx) iv mode) ;;
  src <- gets (fun m => skipn (Z.to_nat (snd in_)) (region_bytes (fst in_) m)) ;;
  '(produced, tmp_csz, ectx) <- lift (EVP_CipherUpdate ectx src size) ;;
  store out produced ;;
  log_cipher {| op_encrypt := mode; op_key := ectx_key ectx;
                op_iv := ectx_iv ectx;
                op_input := firstn (Z.to_nat size) src |} ;;
  let csz := tmp_csz in
  let out := (fst out, snd out + tmp_csz) in
  let tmp_csz := EVP_CipherFinal ectx tmp_csz in
  let csz := csz + tmp_csz in
  assert (size =? csz).

(** The [switch] of [sqlite3Codec]: the direction picked for a pager mode,
    [None] for the [default] branch. *)
Definition switch_mode (mode : Z) : option bool :=
  match mode with
  | 0 | 2 | 3 => Some false   (* decrypt *)
  | 6 | 7 => Some true        (* encrypt *)
  | _ => None
  end.

(** [sqlite3Codec(iCtx, pData, pgno, mode)]; the result is the pointer
    returned. *)
Definition sqlite3Codec (pgno : Z) (mode : Z) : M memory pointer :=
  ctx <- gets m_ctx ;;
  let pg_sz := sqlite3BtreeGetPageSize (pBt ctx) in
  match switch_mode mode with
  | None => ret (PData, 0)
  | Some emode =>
      (if pgno =? 1 then
         memcpy (CtxBuffer, 0) (PData, 0) HDR_SZ ;;
         (if emode then
            memcpy (CtxBuffer, 0) (CtxRand, 0) 16
          else
            memcpy (CtxRand, 0) (PData, 0) 16 ;;
            memcpy_const (CtxBuffer, 0) SQLITE_FILE_HEADER 16) ;;
         codec_cipher pgno emode (pg_sz - HDR_SZ)
                      (PData, HDR_SZ) (CtxBuffer, HDR_SZ)
       else
         codec_cipher pgno emode pg_sz (PData, 0) (CtxBuffer, 0)) ;;
      if emode then
        ret (CtxBuffer, 0)
      else
        memcpy (PData, 0) (CtxBuffer, 0) pg_sz ;;
        ret (PData, 0)
  end.

(** The cipher run the design document asks of a call: direction, the key
    of the context, the IV derived from [salt] and [pgno], the input. *)
Definition run_of (m : memory) (salt : bytes) (pgno : Z) (emode : bool)
  (d : bytes) : cipher_op :=
  {| op_encrypt := emode; op_key := key (m_ctx m);
     op_iv := firstn (Z.to_nat EVP_CIPHER_block_size) (derive_iv salt pgno);
     op_input := d |}.

(** The memory the pager hands over: key and salt have their lengths, the
    scratch buffer and the page of the caller are one page long. *)
Definition well_formed (m : memory) : Prop :=
  len (key (m_ctx m)) = EVP_CIPHER_key_length /\
  len (rand (m_ctx m)) = 16 /\
  len (buffer (m_ctx m)) = sqlite3BtreeGetPageSize (pBt (m_ctx m)) /\
  len (m_pData m) = sqlite3BtreeGetPageSize (pBt (m_ctx m)).

(** The bytes handed to the cipher for page [pgno] fill whole blocks: all
    of the page, or what follows the clear header on page 1. *)
Definition page_fits (pgno : Z) (m : memory) : Prop :=
  let pg_sz := sqlite3BtreeGetPageSize (pBt (m_ctx m)) in
  let size := if pgno =? 1 then pg_sz - HDR_SZ else pg_sz in
  0 < size /\ size mod EVP_CIPHER_block_size = 0.

(** Two memories of one shape: the key, its size and the b-tree of the
    context are the same, and the salt, the scratch buffer and the page have
    kept their lengths. *)
Definition same_shape (m m' : memory) : Prop :=
  key (m_ctx m') = key (m_ctx m) /\
  key_sz (m_ctx m') = key_sz (m_ctx m) /\
  pBt (m_ctx m') = pBt (m_ctx m) /\
  len (rand (m_ctx m')) = len (rand (m_ctx m)) /\
  len (buffer (m_ctx m')) = len (buffer (m_ctx m)) /\
  len (m_pData m') = len (m_pData m).

(** The number of bytes [sqlite3Codec] hands to the cipher for a page. *)
Definition cipher_size (pgno : Z) (m : memory) : Z :=
  let pg_sz := sqlite3BtreeGetPageSize (pBt (m_ctx m)) in
  if pgno =? 1 then pg_sz - HDR_SZ else pg_sz.

(** ** Attaching the codec *)

(** Modelled from the spec: the pager is SQLite's, not crypto.c's.  Section 9
    describes the context as a raw pointer stashed inside the page cache
    structure of the storage engine; [pCodecArg] is that pointer ([None] when
    no codec is set) and [pages] are the pages of the database file. *)
Record Pager : Type := {
  pCodecArg : option codec_ctx;
  pages : list bytes
}.

(** An open database of the connection: its b-tree and the b-tree's pager. *)
Record Db : Type := {
  db_Bt : Btree;
  db_Pager : Pager
}.

(** [struct sqlite3]: [aDb] lists the databases, [None] where [pBt] is
    [NULL]; [nDb] is its length. *)
Record sqlite3 : Type := {
  aDb : list (option Db)
}.

Definition nDb (db : sqlite3) : Z := Z.of_nat (length (aDb db)).

(** What the attach path can reach: the connection, the random generator of
    OpenSSL (a stream of bytes and the number already drawn) and the
    standard output. *)
Record process : Type := {
  p_db : sqlite3;
  p_entropy : nat -> byte;
  p_drawn : nat;
  p_stdout : list String.string
}.

Definition set_db (db : sqlite3) (p : process) : process :=
  {| p_db := db; p_entropy := p_entropy p; p_drawn := p_drawn p;
     p_stdout := p_stdout p |}.

(** [RAND_pseudo_bytes(buf, n)]. *)
Definition RAND_pseudo_bytes (n : nat) : M process bytes :=
  fun p => Ok (map (p_entropy p) (seq (p_drawn p) n),
               {| p_db := p_db p; p_entropy := p_entropy p;
                  p_drawn := (p_drawn p + n)%nat; p_stdout := p_stdout p |}).

Definition add_stdout (msg : String.string) (p : process) : process :=
  {| p_db := p_db p; p_entropy := p_entropy p; p_drawn := p_drawn p;
     p_stdout := p_stdout p ++ [msg] |}.

Definition printf (msg : String.string) : M process unit :=
  modify (add_stdout msg).

(** [sqlite3_malloc(n)]: a fresh buffer of [n] bytes.  The contents of fresh
    memory are not specified; no statement below depends on them. *)
Definition sqlite3_malloc (n : Z) : bytes := repeat "000"%byte (Z.to_nat n).

(** Modelled from the spec: [sqlite3StrNICmp] is SQLite's (util.c).  Section
    4.1 has the literal key prefixed by x and a quote; the comparison is
    case insensitive, so [sqlite3StrNICmp(zKey, "x'", 2) == 0] holds when
    the credential starts with x or X followed by a quote. *)
Definition starts_blob_literal (zKey : bytes) : bool :=
  match zKey with
  | a :: b :: _ =>
      (Byte.eqb a "x"%byte || Byte.eqb a "X"%byte) && Byte.eqb b "'"%byte
  | _ => false
  end.

(** Modelled from the spec: the value of one hex digit (SQLite's util.c);
    a character that is no hex digit has none. *)
Definition hexToInt (h : byte) : option N :=
  let c := Byte.to_N h in
  if (48 <=? c)%N && (c <=? 57)%N then Some (c - 48)%N
  else if (97 <=? c)%N && (c <=? 102)%N then Some (c - 97 + 10)%N
  else if (65 <=? c)%N && (c <=? 70)%N then Some (c - 65 + 10)%N
  else None.

Definition is_hex (h : byte) : bool :=
  match hexToInt h with Some _ => true | None => false end.

Fixpoint hex_pairs (cnt : nat) (z : bytes) : result bytes :=
  match cnt with
  | O => Ok []
  | S cnt' =>
      match z with
      | hi :: lo :: z' =>
          match hexToInt hi, hexToInt lo with
          | Some h, Some l =>
              rbind (hex_pairs cnt' z')
                    (fun r => Ok (byte_of_N (N.lor (N.shiftl h 4) l) :: r))
          | _, _ => Crash AssertionFailed
          end
      | _ => Crash OutOfBounds
      end
  end.

(** Modelled from the spec: [sqlite3HexToBlob(db, z, n)] is SQLite's
    (util.c); section 4.1 has it hex-decode the payload.  Two digits make a
    byte, so [n] characters give [n/2] bytes. *)
Definition sqlite3HexToBlob (z : bytes) (n : Z) : result bytes :=
  hex_pairs (Z.to_nat (Z.quot n 2)) z.

(** Modelled from the spec: [sqlite3pager_set_codec] is the pager's; it
    stores the codec and its argument in the pager, over what was there. *)
Definition sqlite3pager_set_codec (pPager : Pager) (pCodec : codec_ctx)
  : Pager :=
  {| pCodecArg := Some pCodec; pages := pages pPager |}.

Definition update_nth {A} (n : nat) (x : A) (l : list A) : list A :=
  firstn n l ++ x :: skipn (S n) l.

(** [sqlite3CodecAttach(db, nDb, zKey, nKey)]; [zKey] is [None] for a null
    pointer.  The function has no [return]. *)
Definition sqlite3CodecAttach (nDb : Z) (zKey : option bytes) (nKey : Z)
  : M process unit :=
  match zKey with
  | Some zKey =>
      if nKey =? 0 then ret tt else
      db <- gets p_db ;;
      pDb <- lift (match nth_error (aDb db) (Z.to_nat nDb) with
                   | Some pDb => if 0 <=? nDb then Ok pDb
                                 else Crash OutOfBounds
                   | None => Crash OutOfBounds
                   end) ;;
      match pDb with
      | Some pDb =>
          let ctx_pBt := db_Bt pDb in
          ctx_rand <- RAND_pseudo_bytes 16 ;;
          let ctx_buffer :=
            sqlite3_malloc (sqlite3BtreeGetPageSize ctx_pBt) in
          let ctx_key_sz := EVP_CIPHER_key_length in
          ctx_key <-
            (if starts_blob_literal zKey then
               let n := nKey - 3 in
               let z := skipn 2 zKey in
               assert (Z.quot n 2 =? ctx_key_sz) ;;
               lift (sqlite3HexToBlob z n)
             else
               let ctx_key := sqlite3_malloc ctx_key_sz in
               '(md_value, key_sz) <- lift (codec_passphrase_hash zKey nKey) ;;
               ctx_key <- lift (write ctx_key 0 md_value) ;;
               assert (key_sz =? ctx_key_sz) ;;
               ret ctx_key) ;;
          let ctx := {| key_sz := ctx_key_sz; pBt := ctx_pBt;
                        key := ctx_key; rand := ctx_rand;
                        buffer := ctx_buffer |} in
          let pDb' := {| db_Bt := db_Bt pDb;
                         db_Pager := sqlite3pager_set_codec (db_Pager pDb)
                                                            ctx |} in
          db <- gets p_db ;;
          modify (set_db {| aDb := update_nth (Z.to_nat nDb) (Some pDb')
                                              (aDb db) |})
      | None => ret tt
      end
  | None => ret tt
  end.

(** The process after an attach to database [nDb] that derived the key
    [k]: sixteen bytes of the generator drawn for the salt, a context built
    and stored in the pager. *)
Definition fresh_ctx (pDb : Db) (k salt : bytes) : codec_ctx :=
  {| key_sz := EVP_CIPHER_key_length; pBt := db_Bt pDb; key := k;
     rand := salt;
     buffer := sqlite3_malloc (sqlite3BtreeGetPageSize (db_Bt pDb)) |}.

Definition attached (nDb : Z) (pDb : Db) (k : bytes) (p : process)
  : process :=
  let salt := map (p_entropy p) (seq (p_drawn p) 16) in
  let pDb' := {| db_Bt := db_Bt pDb;
                 db_Pager := sqlite3pager_set_codec (db_Pager pDb)
                               (fresh_ctx pDb k salt) |} in
  {| p_db := {| aDb := update_nth (Z.to_nat nDb) (Some pDb')
                                  (aDb (p_db p)) |};
     p_entropy := p_entropy p; p_drawn := (p_drawn p + 16)%nat;
     p_stdout := p_stdout p |}.

(** The pages of the database files of a connection. *)
Definition files (db : sqlite3) : list (option (list bytes)) :=
  map (option_map (fun pDb => pages (db_Pager pDb))) (aDb db).

(** The context attached to database [nDb], if any. *)
Definition codec_of (db : sqlite3) (nDb : Z) : option codec_ctx :=
  match nth_error (aDb db) (Z.to_nat nDb) with
  | Some (Some pDb) => pCodecArg (db_Pager pDb)
  | _ => None
  end.

(** The [for] loop of [sqlite3_key], from index [i], [todo] rounds. *)
Fixpoint sqlite3_key_loop (todo : nat) (i : Z) (pKey : option bytes)
  (nKey : Z) : M process unit :=
  match todo with
  | O => ret tt
  | S todo' =>
      sqlite3CodecAttach i pKey nKey ;;
      sqlite3_key_loop todo' (i + 1) pKey nKey
  end.

(** [sqlite3_key(db, pKey, nKey)]; [db] is [false] for a null pointer. *)
Definition sqlite3_key (db : bool) (pKey : option bytes) (nKey : Z)
  : M process unit :=
  if db then
    n <- gets (fun p => nDb (p_db p)) ;;
    sqlite3_key_loop (Z.to_nat n) 0 pKey nKey
  else ret tt.

(** The line [sqlite3_rekey] prints. *)
Definition rekey_notice : String.string :=
  String.append "sorry sqlite3_rekey is not implemented yet"%string
                (String.String (Ascii.ascii_of_nat 10) String.EmptyString).

(** [sqlite3_rekey(db, pKey, nKey)]. *)
Definition sqlite3_rekey (db : bool) (pKey : option bytes) (nKey : Z)
  : M process unit :=
  printf rekey_notice ;;
  sqlite3_key db pKey nKey.

(** Modelled from the spec: [sqlite3pager_get_codec] is the pager's; it
    hands back the pointer [sqlite3pager_set_codec] stored, [None] when
    there is none. *)
Definition sqlite3pager_get_codec (pPager : Pager) : option codec_ctx :=
  pCodecArg pPager.

(** [sqlite3CodecGetKey(db, nDb, &zKey, &nKey)]: what is stored through the
    two out-pointers, [None] when they are left alone ([pBt] is [NULL]);
    a null [*zKey] is [None]. *)
Definition sqlite3CodecGetKey (nDb : Z)
  : M process (option (option bytes * Z)) :=
  db <- gets p_db ;;
  pDb <- lift (match nth_error (aDb db) (Z.to_nat nDb) with
               | Some pDb => if 0 <=? nDb then Ok pDb else Crash OutOfBounds
               | None => Crash OutOfBounds
               end) ;;
  match pDb with
  | Some pDb =>
      match sqlite3pager_get_codec (db_Pager pDb) with
      | Some ctx => ret (Some (Some (key ctx), key_sz ctx))
      | None => ret (Some (None, 0))
      end
  | None => ret None
  end.

(** The memory of a transform call under a context and a page. *)
Definition memory_of (ctx : codec_ctx) (page : bytes) : memory :=
  {| m_ctx := ctx; m_pData := page; m_evp := [] |}.

End Codec.

(** ** A small scheme to run the model on

    An eight byte block cipher (exclusive or with the key, then reversal), an
    eight byte digest, little-endian 32 bit page numbers and SQLite's magic
    string.  It only serves to evaluate the definitions on concrete pages. *)
Module Sample.

Definition digest8 (m : bytes) : bytes :=
  map (fun seed => fold_left byte_xor m seed)
      [x5c; x36; xa5; x3a; xc3; x69; x96; x0f].

Definition le32 (n : Z) : bytes :=
  map (fun i => byte_of_N (Z.to_N ((n / 256 ^ i) mod 256))) [0; 1; 2; 3].

Definition magic : bytes :=
  list_byte_of_string "SQLite format 3" ++ [x00].

Definition scheme : Scheme := {|
  DIGEST := digest8;
  EVP_CIPHER_key_length := 8;
  EVP_CIPHER_block_size := 8;
  block_encrypt := fun k b => rev (xor_bytes b k);
  block_decrypt := fun k c => xor_bytes (rev c) k;
  Pgno_bytes := le32;
  SQLITE_FILE_HEADER := magic
|}.

(** A 512 byte page: [hd] followed by a repeating pattern. *)
Definition page512 (hd : bytes) (fill : bytes) : bytes :=
  firstn 512 (hd ++ concat (repeat fill 512)).

Definition key8 : bytes := list_byte_of_string "k3y-8byt".
Definition salt16 : bytes := list_byte_of_string "0123456789abcdef".
Definition salt16' : bytes := list_byte_of_string "fedcba9876543210".

Definition ctx512 (s : bytes) : codec_ctx :=
  {| key_sz := 8; pBt := {| pageSize := 512 |}; key := key8; rand := s;
     buffer := repeat x00 512 |}.

Definition mem512 (s : bytes) (page : bytes) : memory :=
  {| m_ctx := ctx512 s; m_pData := page; m_evp := [] |}.

(** A plaintext page 1 as SQLite lays it out: the magic string, then the
    page size and format bytes, then content. *)
Definition plain1 : bytes :=
  page512 (magic ++ [x02; x00; x01; x01; x00; x40; x20; x20])
          (list_byte_of_string "page one ").

(** The same page with another page-size field in bytes 16 and 17. *)
Definition plain1' : bytes :=
  page512 (magic ++ [x04; x00; x01; x01; x00; x40; x20; x20])
          (list_byte_of_string "page one ").

Definition plain2 : bytes := page512 [] (list_byte_of_string "page two.").

(** Page 1 as it lies on disk in a file whose salt is [salt16']. *)
Definition disk1 : bytes :=
  page512 (salt16' ++ [x02; x00; x01; x01; x00; x40; x20; x20])
          (list_byte_of_string "CIPHERTEXT").

(** A connection with the main database open and the temp database not
    yet opened, and a process around it. *)
Definition main_db (c : option codec_ctx) : Db :=
  {| db_Bt := {| pageSize := 512 |};
     db_Pager := {| pCodecArg := c; pages := [disk1; plain2] |} |}.

Definition conn (c : option codec_ctx) : sqlite3 :=
  {| aDb := [Some (main_db c); None] |}.

Definition proc (c : option codec_ctx) : process :=
  {| p_db := conn c;
     p_entropy := fun i => byte_of_N (N.of_nat (7 * i + 3));
     p_drawn := 0; p_stdout := [] |}.

Definition passphrase : bytes := list_byte_of_string "correct horse".

(** Blob literals for an eight byte key: sixteen digits, seventeen digits,
    four digits. *)
Definition blob16 : bytes := list_byte_of_string "x'0123456789abcdef'".
Definition blob17 : bytes := list_byte_of_string "x'0123456789abcdef0'".
Definition blob4 : bytes := list_byte_of_string "x'0123'".

(** A second scheme, with the sizes of a 128 bit block cipher: blocks of
    sixteen bytes under the same eight byte keys, and a sixteen byte
    digest. *)
Definition digest16 (m : bytes) : bytes := digest8 m ++ digest8 (rev m).

Definition scheme16 : Scheme := {|
  DIGEST := digest16;
  EVP_CIPHER_key_length := 8;
  EVP_CIPHER_block_size := 16;
  block_encrypt := fun k b => rev (xor_bytes b (k ++ k));
  block_decrypt := fun k c => xor_bytes (rev c) (k ++ k);
  Pgno_bytes := le32;
  SQLITE_FILE_HEADER := magic
|}.

(** A connection with three databases: main and an attached one open, the
    temp database not opened. *)
Definition conn3 : sqlite3 :=
  {| aDb := [Some (main_db None); None;
             Some {| db_Bt := {| pageSize := 1024 |};
                     db_Pager := {| pCodecArg := Some (ctx512 salt16);
                                    pages := [] |} |}] |}.

Definition proc3 : process :=
  {| p_db := conn3;
     p_entropy := fun i => byte_of_N (N.of_nat (7 * i + 3));
     p_drawn := 0; p_stdout := [] |}.

End Sample.

(** * Properties *)

(** ** Bytes and buffers *)

Lemma byte_xor_cancel (a b : byte) : byte_xor (byte_xor a b) b = a.
Proof.
  unfold byte_xor.
  destruct (Byte.to_bits a) as (a0, (a1, (a2, (a3, (a4, (a5, (a6, a7)))))))
    eqn:Ea.
  destruct (Byte.to_bits b) as (b0, (b1, (b2, (b3, (b4, (b5, (b6, b7)))))))
    eqn:Eb.
  rewrite Byte.to_bits_of_bits.
  rewrite !xorb_assoc, !xorb_nilpotent, !xorb_false_r.
  rewrite <- Ea. apply Byte.of_bits_to_bits.
Qed.

Lemma length_xor_bytes (a b : bytes) :
  length (xor_bytes a b) = Nat.min (length a) (length b).
Proof.
  revert b; induction a as [|x a IH]; intros [|y b]; simpl; auto.
Qed.

Lemma xor_bytes_cancel (a b : bytes) :
  (length a <= length b)%nat -> xor_bytes (xor_bytes a b) b = a.
Proof.
  revert b; induction a as [|x a IH]; intros [|y b] H; simpl in *;
    try reflexivity; try lia.
  rewrite byte_xor_cancel, IH by lia. reflexivity.
Qed.

Lemma len_nonneg (b : bytes) : 0 <= len b.
Proof. unfold len; lia. Qed.

Lemma len_app (a b : bytes) : len (a ++ b) = len a + len b.
Proof. unfold len; rewrite length_app; lia. Qed.

Lemma len_firstn (n : Z) (b : bytes) :
  0 <= n <= len b -> len (firstn (Z.to_nat n) b) = n.
Proof. unfold len; intros H; rewrite length_firstn; lia. Qed.

Lemma len_skipn (n : Z) (b : bytes) :
  0 <= n <= len b -> len (skipn (Z.to_nat n) b) = len b - n.
Proof. unfold len; intros H; rewrite length_skipn; lia. Qed.

Lemma firstn_len (b : bytes) : firstn (Z.to_nat (len b)) b = b.
Proof. unfold len; rewrite Nat2Z.id; apply firstn_all. Qed.

Lemma skipn_len (b : bytes) : skipn (Z.to_nat (len b)) b = [].
Proof. unfold len; rewrite Nat2Z.id; apply skipn_all. Qed.

Lemma read_ok (b : bytes) (off n : Z) :
  0 <= off -> 0 <= n -> off + n <= len b ->
  read b off n = Ok (firstn (Z.to_nat n) (skipn (Z.to_nat off) b)).
Proof.
  intros H1 H2 H3; unfold read.
  destruct (Z.leb_spec 0 off); try lia.
  destruct (Z.leb_spec 0 n); try lia.
  destruct (Z.leb_spec (off + n) (len b)); try lia.
  reflexivity.
Qed.

Lemma read_whole (b : bytes) : read b 0 (len b) = Ok b.
Proof.
  rewrite read_ok by (pose proof (len_nonneg b); lia).
  simpl; rewrite firstn_len; reflexivity.
Qed.

Lemma write_ok (b : bytes) (off : Z) (d : bytes) :
  0 <= off -> off + len d <= len b ->
  write b off d =
  Ok (firstn (Z.to_nat off) b ++ d ++ skipn (Z.to_nat (off + len d)) b).
Proof.
  intros H1 H2; unfold write.
  destruct (Z.leb_spec 0 off); try lia.
  destruct (Z.leb_spec (off + len d) (len b)); try lia.
  reflexivity.
Qed.

(** Storing over a whole buffer replaces it. *)
Lemma write_whole (b d : bytes) : len d = len b -> write b 0 d = Ok d.
Proof.
  intros H; rewrite write_ok by (pose proof (len_nonneg b); lia).
  simpl. rewrite H, skipn_len, app_nil_r. reflexivity.
Qed.

(** Storing at the front of a buffer. *)
Lemma write_front (b d : bytes) :
  len d <= len b -> write b 0 d = Ok (d ++ skipn (Z.to_nat (len d)) b).
Proof.
  intros H; rewrite write_ok by (pose proof (len_nonneg b); lia).
  reflexivity.
Qed.

(** Storing over the tail of a buffer. *)
Lemma write_tail (a c d : bytes) :
  len d = len c -> write (a ++ c) (len a) d = Ok (a ++ d).
Proof.
  intros H.
  rewrite write_ok by (rewrite ?len_app; pose proof (len_nonneg a); lia).
  unfold len at 1. rewrite Nat2Z.id, firstn_app, firstn_all, Nat.sub_diag.
  simpl. rewrite app_nil_r. rewrite H, <- len_app, skipn_len, app_nil_r.
  reflexivity.
Qed.

Lemma skipn_len_app (p d : bytes) : skipn (Z.to_nat (len p)) (p ++ d) = d.
Proof.
  unfold len; rewrite Nat2Z.id, skipn_app, skipn_all, Nat.sub_diag.
  reflexivity.
Qed.

(** ** Running state transformers *)

Lemma bind_ok {St A B} (m : M St A) (k : A -> M St B) (s s' : St) (a : A) :
  m s = Ok (a, s') -> bind m k s = k a s'.
Proof. unfold bind; intros ->; reflexivity. Qed.

Lemma bind_crash {St A B} (m : M St A) (k : A -> M St B) (s : St) (f : fault) :
  m s = Crash f -> bind m k s = Crash f.
Proof. unfold bind; intros ->; reflexivity. Qed.

Lemma lift_ok {St A} (r : result A) (a : A) (s : St) :
  r = Ok a -> lift r s = Ok (a, s).
Proof. intros ->; reflexivity. Qed.

(** [run tac]: perform the first action of a sequence, [tac] proving what it
    returns. *)
Ltac run tac :=
  eapply eq_trans; [ apply bind_ok; tac | cbv beta iota ].

Ltac run_lift tac := run ltac:(apply lift_ok; tac).

Ltac proj_mem :=
  cbn [region_bytes set_region add_cipher_op m_ctx m_pData m_evp set_rand
       set_buffer rand buffer key pBt key_sz fst snd].

Ltac norm_mem :=
  proj_mem;
  change (Z.to_nat 24) with 24%nat; change (Z.to_nat 16) with 16%nat.

(** The bounds of a [memcpy] between buffers whose lengths are known. *)
Ltac bounds :=
  proj_mem;
  repeat first [ rewrite len_app | rewrite len_firstn by lia
               | rewrite len_skipn by lia ];
  lia.

Lemma bind_inv {St A B} (m : M St A) (k : A -> M St B) (s s2 : St) (b : B) :
  bind m k s = Ok (b, s2) ->
  exists a s1, m s = Ok (a, s1) /\ k a s1 = Ok (b, s2).
Proof.
  unfold bind. destruct (m s) as [[a s1]|f]; [|discriminate].
  intros H; exists a, s1; split; [reflexivity | exact H].
Qed.

Lemma gets_inv {St A} (f : St -> A) (s s' : St) (a : A) :
  gets f s = Ok (a, s') -> a = f s /\ s' = s.
Proof. unfold gets; intros H; inversion H; split; reflexivity. Qed.

Lemma lift_inv {St A} (r : result A) (s s' : St) (a : A) :
  lift r s = Ok (a, s') -> r = Ok a /\ s' = s.
Proof.
  unfold lift; destruct r; intros H; inversion H; split; reflexivity.
Qed.

Lemma modify_inv {St} (f : St -> St) (s s' : St) (u : unit) :
  modify f s = Ok (u, s') -> s' = f s.
Proof. unfold modify; intros H; inversion H; reflexivity. Qed.

Lemma assert_inv {St} (b : bool) (s s' : St) (u : unit) :
  assert b s = Ok (u, s') -> b = true /\ s' = s.
Proof.
  unfold assert; destruct b; intros H; inversion H; split; reflexivity.
Qed.

(** [unbind H as a s H1]: split a successful sequence into its first
    action, which returned [a] in state [s] ([H1]), and the rest ([H]). *)
Tactic Notation "unbind" hyp(H) "as" ident(a) ident(s) ident(H1) :=
  apply bind_inv in H; destruct H as (a & s & H1 & H).

Section Properties.
Context {Sch : Scheme}.
Context {Laws : SchemeLaws Sch}.

Local Abbreviation bs := EVP_CIPHER_block_size.

(** ** The cipher *)

Lemma len_cbc_encrypt (n : nat) (k prev d : bytes) :
  len k = EVP_CIPHER_key_length -> len prev = bs ->
  Z.of_nat n * bs <= len d ->
  len (cbc_encrypt n k prev d) = Z.of_nat n * bs.
Proof.
  pose proof block_size_pos as Hbs.
  revert prev d; induction n as [|n IH]; intros prev d Hk Hp Hd.
  - reflexivity.
  - cbn [cbc_encrypt].
    assert (Hx : len (xor_bytes (firstn (Z.to_nat bs) d) prev) = bs).
    { unfold len in *. rewrite length_xor_bytes, length_firstn. lia. }
    rewrite len_app, block_encrypt_length by assumption.
    rewrite IH; try assumption; try lia.
    + apply block_encrypt_length; assumption.
    + rewrite len_skipn; lia.
Qed.

Lemma len_cbc_decrypt (n : nat) (k prev d : bytes) :
  len k = EVP_CIPHER_key_length -> len prev = bs ->
  Z.of_nat n * bs <= len d ->
  len (cbc_decrypt n k prev d) = Z.of_nat n * bs.
Proof.
  pose proof block_size_pos as Hbs.
  revert prev d; induction n as [|n IH]; intros prev d Hk Hp Hd.
  - reflexivity.
  - cbn [cbc_decrypt].
    assert (Hc : len (firstn (Z.to_nat bs) d) = bs) by (apply len_firstn; lia).
    rewrite len_app. rewrite IH; try assumption; try lia.
    + pose proof (block_decrypt_length k _ Hk Hc) as Hl.
      unfold len in *. rewrite length_xor_bytes. lia.
    + rewrite len_skipn; lia.
Qed.

(** Decrypting what CBC encrypted gives back the blocks that went in. *)
Lemma cbc_decrypt_encrypt (n : nat) (k prev d : bytes) :
  len k = EVP_CIPHER_key_length -> len prev = bs ->
  Z.of_nat n * bs <= len d ->
  cbc_decrypt n k prev (cbc_encrypt n k prev d)
  = firstn (n * Z.to_nat bs) d.
Proof.
  pose proof block_size_pos as Hbs.
  revert prev d; induction n as [|n IH]; intros prev d Hk Hp Hd.
  - reflexivity.
  - cbn [cbc_encrypt cbc_decrypt].
    set (x := xor_bytes (firstn (Z.to_nat bs) d) prev).
    assert (Hx : len x = bs).
    { subst x. unfold len in *. rewrite length_xor_bytes, length_firstn. lia. }
    assert (Hc : length (block_encrypt k x) = Z.to_nat bs).
    { pose proof (block_encrypt_length k x Hk Hx). unfold len in *; lia. }
    rewrite firstn_app, Hc, Nat.sub_diag, firstn_all2 by lia.
    simpl firstn. rewrite app_nil_r.
    rewrite skipn_app, Hc, Nat.sub_diag, skipn_all2 by lia.
    simpl skipn. cbn [app].
    rewrite block_decrypt_encrypt by assumption.
    subst x. rewrite xor_bytes_cancel
      by (unfold len in *; rewrite length_firstn; lia).
    rewrite IH; try assumption.
    + replace (S n * Z.to_nat bs)%nat
        with (Z.to_nat bs + n * Z.to_nat bs)%nat by lia.
      rewrite <- (firstn_skipn (Z.to_nat bs) d) at 3.
      rewrite firstn_app, length_firstn.
      replace (Nat.min (Z.to_nat bs) (length d)) with (Z.to_nat bs)
        by (unfold len in *; lia).
      f_equal; [rewrite firstn_firstn | ]; f_equal; lia.
    + apply block_encrypt_length; assumption.
    + rewrite len_skipn; lia.
Qed.

(** ** [codec_page_hash] and [codec_cipher] *)

Lemma codec_page_hash_eq (pgno : Z) (in_ : bytes) (inLen : Z) :
  0 <= inLen <= len in_ ->
  codec_page_hash pgno in_ inLen
  = Ok (derive_iv (firstn (Z.to_nat inLen) in_) pgno,
        len (derive_iv (firstn (Z.to_nat inLen) in_) pgno)).
Proof.
  intros H. unfold codec_page_hash, EVP_DigestUpdate, EVP_DigestInit_ex.
  rewrite read_ok by lia. cbn [rbind skipn Z.to_nat app].
  rewrite read_whole. reflexivity.
Qed.

Lemma transform_length (k iv : bytes) (mode : bool) (d : bytes) :
  len k = EVP_CIPHER_key_length -> bs <= len iv -> len d mod bs = 0 ->
  len (transform k iv mode d) = len d.
Proof.
  intros Hk Hiv Hd. pose proof block_size_pos as Hbs.
  pose proof (len_nonneg d) as Hd0.
  assert (Hn : Z.of_nat (Z.to_nat (len d / bs)) * bs = len d).
  { rewrite Z2Nat.id by (apply Z.div_pos; lia).
    pose proof (Z.div_mod (len d) bs). lia. }
  unfold transform; destruct mode;
    [rewrite len_cbc_encrypt | rewrite len_cbc_decrypt];
    try assumption; try lia; apply len_firstn; lia.
Qed.

(** The memory after a run of [codec_cipher] that reads the [size] bytes
    [d] and stores into the scratch buffer behind the bytes [a]. *)
Lemma store_buffer_tail (m : memory) (a c d : bytes) :
  buffer (m_ctx m) = a ++ c -> len d = len c ->
  store (CtxBuffer, len a) d m = Ok (tt, set_region CtxBuffer (a ++ d) m).
Proof.
  intros Hb Hd. unfold store.
  run ltac:(reflexivity).
  run_lift ltac:(cbn [fst snd region_bytes]; rewrite Hb;
                 apply write_tail; exact Hd).
  reflexivity.
Qed.

Lemma codec_cipher_run (m : memory) (pgno : Z) (mode : bool) (size : Z)
  (r : region) (p d a c : bytes) :
  len (key (m_ctx m)) = EVP_CIPHER_key_length ->
  len (rand (m_ctx m)) = 16 ->
  region_bytes r m = p ++ d -> buffer (m_ctx m) = a ++ c ->
  len d = size -> len c = size -> 0 < size -> size mod bs = 0 ->
  codec_cipher pgno mode size (r, len p) (CtxBuffer, len a) m
  = Ok (tt, add_cipher_op
              {| op_encrypt := mode; op_key := key (m_ctx m);
                 op_iv := firstn (Z.to_nat bs)
                                 (derive_iv (rand (m_ctx m)) pgno);
                 op_input := d |}
              (set_region CtxBuffer
                 (a ++ transform (key (m_ctx m))
                                 (derive_iv (rand (m_ctx m)) pgno) mode d)
                 m)).
Proof.
  intros Hk Hr Hin Hout Hd Hc Hsz Hmod.
  pose proof block_size_pos as Hbs.
  pose proof (DIGEST_covers_iv (rand (m_ctx m) ++ Pgno_bytes pgno)) as Hiv.
  fold (derive_iv (rand (m_ctx m)) pgno) in Hiv.
  unfold codec_cipher.
  run ltac:(reflexivity).
  run_lift ltac:(rewrite codec_page_hash_eq by lia;
                 rewrite <- Hr, firstn_len; reflexivity).
  run_lift ltac:(unfold EVP_CipherInit; rewrite <- Hk, read_whole;
                 cbn [rbind]; rewrite read_ok by lia; reflexivity).
  run ltac:(unfold gets; cbn [fst snd]; rewrite Hin, skipn_len_app;
            reflexivity).
  run_lift ltac:(unfold EVP_CipherUpdate;
                 destruct (Z.leb_spec size 0); [lia|];
                 rewrite <- Hd at 1; rewrite read_whole; reflexivity).
  cbn [ectx_encrypt ectx_key ectx_iv ectx_buf_len skipn Z.to_nat].
  assert (Ht : (if mode then cbc_encrypt else cbc_decrypt)
                 (Z.to_nat (size / bs)) (key (m_ctx m))
                 (firstn (Z.to_nat bs) (derive_iv (rand (m_ctx m)) pgno)) d
               = transform (key (m_ctx m))
                   (derive_iv (rand (m_ctx m)) pgno) mode d).
  { unfold transform; rewrite Hd; reflexivity. }
  rewrite Ht.
  run ltac:(apply store_buffer_tail with (c := c);
            [ exact Hout
            | rewrite transform_length;
              [lia | exact Hk | exact Hiv | rewrite Hd; exact Hmod] ]).
  run ltac:(reflexivity).
  unfold EVP_CipherFinal. cbn [ectx_buf_len].
  rewrite Hmod. cbn [Z.eqb].
  replace (size / bs * bs + 0) with size
    by (pose proof (Z.div_mod size bs); lia).
  rewrite Z.eqb_refl. cbn [assert].
  rewrite <- Hd at 1. rewrite firstn_len. reflexivity.
Qed.

Lemma codec_cipher_at (m : memory) (pgno : Z) (mode : bool) (size : Z)
  (r : region) (off_in off_out : Z) (p d a c : bytes) :
  len (key (m_ctx m)) = EVP_CIPHER_key_length ->
  len (rand (m_ctx m)) = 16 ->
  region_bytes r m = p ++ d -> buffer (m_ctx m) = a ++ c ->
  len p = off_in -> len a = off_out ->
  len d = size -> len c = size -> 0 < size -> size mod bs = 0 ->
  codec_cipher pgno mode size (r, off_in) (CtxBuffer, off_out) m
  = Ok (tt, add_cipher_op
              {| op_encrypt := mode; op_key := key (m_ctx m);
                 op_iv := firstn (Z.to_nat bs)
                                 (derive_iv (rand (m_ctx m)) pgno);
                 op_input := d |}
              (set_region CtxBuffer
                 (a ++ transform (key (m_ctx m))
                                 (derive_iv (rand (m_ctx m)) pgno) mode d)
                 m)).
Proof.
  intros Hk Hr Hin Hout <- <-. apply codec_cipher_run with (c := c); assumption.
Qed.

(** Decrypting under the key and IV that encrypted gives the data back. *)
Lemma transform_round_trip (k iv d : bytes) :
  len k = EVP_CIPHER_key_length -> bs <= len iv -> len d mod bs = 0 ->
  transform k iv false (transform k iv true d) = d.
Proof.
  intros Hk Hiv Hd. pose proof block_size_pos as Hbs.
  pose proof (len_nonneg d) as Hd0.
  pose proof (transform_length k iv true d Hk Hiv Hd) as Hl.
  unfold transform at 1. rewrite Hl. unfold transform.
  assert (Hn : Z.of_nat (Z.to_nat (len d / bs)) * bs = len d).
  { rewrite Z2Nat.id by (apply Z.div_pos; lia).
    pose proof (Z.div_mod (len d) bs). lia. }
  rewrite cbc_decrypt_encrypt; try assumption; try lia.
  - apply firstn_all2. unfold len in *. nia.
  - apply len_firstn; lia.
Qed.

(** ** [memcpy] *)

Lemma load_ok (m : memory) (r : region) (off n : Z) :
  0 <= off -> 0 <= n -> off + n <= len (region_bytes r m) ->
  load (r, off) n m
  = Ok (firstn (Z.to_nat n) (skipn (Z.to_nat off) (region_bytes r m)), m).
Proof.
  intros H1 H2 H3. unfold load.
  run ltac:(reflexivity).
  cbn [fst snd]. apply lift_ok, read_ok; assumption.
Qed.

Lemma store_ok (m : memory) (r : region) (off : Z) (d b' : bytes) :
  write (region_bytes r m) off d = Ok b' ->
  store (r, off) d m = Ok (tt, set_region r b' m).
Proof.
  intros H. unfold store.
  run ltac:(reflexivity).
  run_lift ltac:(exact H).
  reflexivity.
Qed.

(** Copying the first [n] bytes of one buffer over the front of another. *)
Lemma memcpy_front (m : memory) (dst src : region) (n : Z) :
  0 <= n -> n <= len (region_bytes src m) ->
  n <= len (region_bytes dst m) ->
  memcpy (dst, 0) (src, 0) n m
  = Ok (tt, set_region dst
              (firstn (Z.to_nat n) (region_bytes src m)
               ++ skipn (Z.to_nat n) (region_bytes dst m)) m).
Proof.
  intros H0 Hs Hd. unfold memcpy.
  run ltac:(apply load_ok; lia).
  cbn [skipn Z.to_nat].
  apply store_ok.
  rewrite write_front by (rewrite len_firstn; lia).
  rewrite len_firstn by lia. reflexivity.
Qed.

Lemma memcpy_const_front (m : memory) (dst : region) (src : bytes) (n : Z) :
  0 <= n -> n <= len src -> n <= len (region_bytes dst m) ->
  memcpy_const (dst, 0) src n m
  = Ok (tt, set_region dst
              (firstn (Z.to_nat n) src
               ++ skipn (Z.to_nat n) (region_bytes dst m)) m).
Proof.
  intros H0 Hs Hd. unfold memcpy_const.
  run_lift ltac:(apply read_ok; lia).
  cbn [skipn Z.to_nat].
  apply store_ok.
  rewrite write_front by (rewrite len_firstn; lia).
  rewrite len_firstn by lia. reflexivity.
Qed.

(** ** [sqlite3Codec], case by case *)

Lemma switch_mode_decrypt (mode : Z) :
  switch_mode mode = Some false <-> mode = 0 \/ mode = 2 \/ mode = 3.
Proof.
  split.
  - destruct mode as [|[[[]|[]|]|[[]|[]|]|]|[]]; cbn; intros H;
      try discriminate; auto.
  - intros [-> | [-> | ->]]; reflexivity.
Qed.

Lemma switch_mode_encrypt (mode : Z) :
  switch_mode mode = Some true <-> mode = 6 \/ mode = 7.
Proof.
  split.
  - destruct mode as [|[[[]|[]|]|[[]|[]|]|]|[]]; cbn; intros H;
      try discriminate; auto.
  - intros [-> | ->]; reflexivity.
Qed.

Lemma switch_mode_default (mode : Z) :
  switch_mode mode = None <->
  mode <> 0 /\ mode <> 2 /\ mode <> 3 /\ mode <> 6 /\ mode <> 7.
Proof.
  split.
  - intros H; repeat split; intros ->; discriminate.
  - intros (H0 & H2 & H3 & H6 & H7).
    destruct (switch_mode mode) as [[|]|] eqn:E; [ | | reflexivity].
    + apply switch_mode_encrypt in E; lia.
    + apply switch_mode_decrypt in E; lia.
Qed.

Lemma sqlite3Codec_encrypt_page (m : memory) (pgno mode : Z) :
  switch_mode mode = Some true -> pgno <> 1 ->
  well_formed m -> page_fits pgno m ->
  sqlite3Codec pgno mode m
  = Ok ((CtxBuffer, 0),
        add_cipher_op (run_of m (rand (m_ctx m)) pgno true (m_pData m))
          (set_region CtxBuffer
             (transform (key (m_ctx m)) (derive_iv (rand (m_ctx m)) pgno)
                        true (m_pData m)) m)).
Proof.
  intros Hmode Hpg (Hk & Hr & Hb & Hp) Hfit.
  unfold page_fits in Hfit. apply Z.eqb_neq in Hpg. rewrite Hpg in Hfit.
  destruct Hfit as [Hpos Hmod].
  unfold sqlite3Codec.
  run ltac:(reflexivity).
  rewrite Hmode, Hpg.
  run ltac:(apply codec_cipher_at
              with (p := []) (d := m_pData m) (a := [])
                   (c := buffer (m_ctx m));
            try assumption; reflexivity).
  reflexivity.
Qed.

Lemma sqlite3Codec_decrypt_page (m : memory) (pgno mode : Z) :
  switch_mode mode = Some false -> pgno <> 1 ->
  well_formed m -> page_fits pgno m ->
  let plain := transform (key (m_ctx m)) (derive_iv (rand (m_ctx m)) pgno)
                         false (m_pData m) in
  sqlite3Codec pgno mode m
  = Ok ((PData, 0),
        set_region PData plain
          (add_cipher_op (run_of m (rand (m_ctx m)) pgno false (m_pData m))
             (set_region CtxBuffer plain m))).
Proof.
  intros Hmode Hpg (Hk & Hr & Hb & Hp) Hfit plain.
  unfold page_fits in Hfit. apply Z.eqb_neq in Hpg. rewrite Hpg in Hfit.
  destruct Hfit as [Hpos Hmod].
  pose proof (DIGEST_covers_iv (rand (m_ctx m) ++ Pgno_bytes pgno)) as Hiv.
  assert (Hlen : len plain = sqlite3BtreeGetPageSize (pBt (m_ctx m))).
  { subst plain. rewrite transform_length; try assumption.
    rewrite Hp; assumption. }
  unfold sqlite3Codec.
  run ltac:(reflexivity).
  rewrite Hmode, Hpg.
  run ltac:(apply codec_cipher_at
              with (p := []) (d := m_pData m) (a := [])
                   (c := buffer (m_ctx m));
            try assumption; reflexivity).
  cbn [app]. fold plain.
  run ltac:(apply memcpy_front; cbn [region_bytes add_cipher_op set_region
              m_ctx m_pData set_buffer buffer]; lia).
  cbn [region_bytes add_cipher_op set_region m_ctx m_pData set_buffer buffer
       ret].
  rewrite <- Hlen at 1. rewrite firstn_len.
  rewrite <- Hp, skipn_len, app_nil_r. reflexivity.
Qed.

(** Laying 16 bytes over the front of a 24 byte header. *)
Lemma overwrite16 (x hdr rest : bytes) :
  length hdr = 24%nat ->
  x ++ skipn 16 (hdr ++ rest) = (x ++ skipn 16 hdr) ++ rest.
Proof.
  intros H. rewrite skipn_app, H. cbn [Nat.sub skipn].
  rewrite app_assoc. reflexivity.
Qed.

Lemma length_firstn24 (b : bytes) : 24 <= len b -> length (firstn 24 b) = 24%nat.
Proof. unfold len; intros H; rewrite length_firstn; lia. Qed.

Lemma firstn16 (b : bytes) : len b = 16 -> firstn 16 b = b.
Proof. unfold len; intros H; apply firstn_all2; lia. Qed.

Lemma page1_encrypt_steps (m : memory) :
  well_formed m -> page_fits 1 m ->
  (memcpy (CtxBuffer, 0) (PData, 0) HDR_SZ ;;
   memcpy (CtxBuffer, 0) (CtxRand, 0) 16 ;;
   codec_cipher 1 true (sqlite3BtreeGetPageSize (pBt (m_ctx m)) - HDR_SZ)
                (PData, HDR_SZ) (CtxBuffer, HDR_SZ)) m
  = Ok (tt,
        add_cipher_op
          (run_of m (rand (m_ctx m)) 1 true (skipn 24 (m_pData m)))
          (set_region CtxBuffer
             ((rand (m_ctx m) ++ skipn 16 (firstn 24 (m_pData m)))
              ++ transform (key (m_ctx m)) (derive_iv (rand (m_ctx m)) 1)
                           true (skipn 24 (m_pData m))) m)).
Proof.
  intros (Hk & Hr & Hb & Hp) Hfit.
  unfold page_fits in Hfit. cbn [Z.eqb Pos.eqb] in Hfit.
  destruct Hfit as [Hpos Hmod]. unfold HDR_SZ in *.
  set (pg_sz := sqlite3BtreeGetPageSize (pBt (m_ctx m))) in *.
  run ltac:(apply memcpy_front; bounds).
  run ltac:(apply memcpy_front; bounds).
  norm_mem.
  rewrite (firstn16 _ Hr), overwrite16 by (apply length_firstn24; lia).
  eapply eq_trans.
  - apply codec_cipher_at
      with (p := firstn 24 (m_pData m)) (d := skipn 24 (m_pData m))
           (a := rand (m_ctx m) ++ skipn 16 (firstn 24 (m_pData m)))
           (c := skipn 24 (buffer (m_ctx m))); norm_mem;
      try assumption; try reflexivity.
    + symmetry; apply firstn_skipn.
    + apply (len_firstn 24); lia.
    + rewrite len_app, Hr. unfold len.
      rewrite length_skipn, length_firstn24 by lia. reflexivity.
    + rewrite (len_skipn 24); lia.
    + rewrite (len_skipn 24); lia.
  - reflexivity.
Qed.

Lemma sqlite3Codec_encrypt_page1 (m : memory) (mode : Z) :
  switch_mode mode = Some true ->
  well_formed m -> page_fits 1 m ->
  sqlite3Codec 1 mode m
  = Ok ((CtxBuffer, 0),
        add_cipher_op
          (run_of m (rand (m_ctx m)) 1 true (skipn 24 (m_pData m)))
          (set_region CtxBuffer
             ((rand (m_ctx m) ++ skipn 16 (firstn 24 (m_pData m)))
              ++ transform (key (m_ctx m)) (derive_iv (rand (m_ctx m)) 1)
                           true (skipn 24 (m_pData m))) m)).
Proof.
  intros Hmode Hwf Hfit.
  unfold sqlite3Codec.
  run ltac:(reflexivity).
  rewrite Hmode. cbn [Z.eqb Pos.eqb].
  run ltac:(apply page1_encrypt_steps; assumption).
  reflexivity.
Qed.

Lemma skipn16 (b : bytes) : len b = 16 -> skipn 16 b = [].
Proof. unfold len; intros H; apply skipn_all2; lia. Qed.

Lemma len_firstn16 (b : bytes) : 16 <= len b -> len (firstn 16 b) = 16.
Proof. intros H; apply (len_firstn 16); lia. Qed.

Lemma page1_decrypt_steps (m : memory) :
  well_formed m -> page_fits 1 m ->
  let salt := firstn 16 (m_pData m) in
  (memcpy (CtxBuffer, 0) (PData, 0) HDR_SZ ;;
   (memcpy (CtxRand, 0) (PData, 0) 16 ;;
    memcpy_const (CtxBuffer, 0) SQLITE_FILE_HEADER 16) ;;
   codec_cipher 1 false (sqlite3BtreeGetPageSize (pBt (m_ctx m)) - HDR_SZ)
                (PData, HDR_SZ) (CtxBuffer, HDR_SZ)) m
  = Ok (tt,
        add_cipher_op (run_of m salt 1 false (skipn 24 (m_pData m)))
          (set_region CtxBuffer
             ((firstn 16 SQLITE_FILE_HEADER
               ++ skipn 16 (firstn 24 (m_pData m)))
              ++ transform (key (m_ctx m)) (derive_iv salt 1)
                           false (skipn 24 (m_pData m)))
             (set_region CtxRand salt m))).
Proof.
  intros (Hk & Hr & Hb & Hp) Hfit salt.
  unfold page_fits in Hfit. cbn [Z.eqb Pos.eqb] in Hfit.
  destruct Hfit as [Hpos Hmod]. unfold HDR_SZ in *.
  pose proof SQLITE_FILE_HEADER_length as Hh.
  set (pg_sz := sqlite3BtreeGetPageSize (pBt (m_ctx m))) in *.
  assert (Hs : len salt = 16) by (apply len_firstn16; lia).
  run ltac:(apply memcpy_front; bounds).
  run ltac:(run ltac:(apply memcpy_front; bounds);
            apply memcpy_const_front; bounds).
  norm_mem. fold salt.
  rewrite (skipn16 _ Hr), app_nil_r.
  rewrite overwrite16 by (apply length_firstn24; lia).
  eapply eq_trans.
  - apply codec_cipher_at
      with (p := firstn 24 (m_pData m)) (d := skipn 24 (m_pData m))
           (a := firstn 16 SQLITE_FILE_HEADER
                 ++ skipn 16 (firstn 24 (m_pData m)))
           (c := skipn 24 (buffer (m_ctx m))); norm_mem;
      try assumption; try reflexivity.
    + symmetry; apply firstn_skipn.
    + apply (len_firstn 24); lia.
    + rewrite len_app, len_firstn16 by lia. unfold len.
      rewrite length_skipn, length_firstn24 by lia. reflexivity.
    + rewrite (len_skipn 24); lia.
    + rewrite (len_skipn 24); lia.
  - reflexivity.
Qed.

Lemma sqlite3Codec_decrypt_page1 (m : memory) (mode : Z) :
  switch_mode mode = Some false ->
  well_formed m -> page_fits 1 m ->
  let salt := firstn 16 (m_pData m) in
  let plain := (firstn 16 SQLITE_FILE_HEADER
                ++ skipn 16 (firstn 24 (m_pData m)))
               ++ transform (key (m_ctx m)) (derive_iv salt 1)
                            false (skipn 24 (m_pData m)) in
  sqlite3Codec 1 mode m
  = Ok ((PData, 0),
        set_region PData plain
          (add_cipher_op (run_of m salt 1 false (skipn 24 (m_pData m)))
             (set_region CtxBuffer plain (set_region CtxRand salt m)))).
Proof.
  intros Hmode Hwf Hfit salt plain.
  pose proof Hwf as (Hk & Hr & Hb & Hp).
  pose proof Hfit as [Hpos Hmod]. cbn [Z.eqb Pos.eqb] in Hpos, Hmod.
  unfold HDR_SZ in *.
  pose proof SQLITE_FILE_HEADER_length as Hh.
  pose proof (DIGEST_covers_iv (salt ++ Pgno_bytes 1)) as Hiv.
  set (pg_sz := sqlite3BtreeGetPageSize (pBt (m_ctx m))) in *.
  assert (Hlen : len plain = pg_sz).
  { subst plain. rewrite !len_app, len_firstn16 by lia.
    rewrite transform_length; try assumption.
    - unfold len at 1. rewrite length_skipn, length_firstn24 by lia.
      rewrite (len_skipn 24) by lia. lia.
    - rewrite (len_skipn 24) by lia. rewrite Hp. exact Hmod. }
  unfold sqlite3Codec.
  run ltac:(reflexivity).
  rewrite Hmode. cbn [Z.eqb Pos.eqb].
  run ltac:(apply page1_decrypt_steps; assumption).
  fold salt. fold plain.
  run ltac:(apply memcpy_front; proj_mem; fold pg_sz; lia).
  proj_mem. cbn [ret]. fold pg_sz.
  rewrite <- Hlen at 1. rewrite firstn_len.
  rewrite <- Hp, skipn_len, app_nil_r. reflexivity.
Qed.

(** ** Attaching *)

Lemma hex_pairs_ok (cnt : nat) (z : bytes) :
  (2 * cnt <= length z)%nat ->
  forallb is_hex (firstn (2 * cnt) z) = true ->
  exists k, hex_pairs cnt z = Ok k /\ length k = cnt.
Proof.
  revert z; induction cnt as [|cnt IH]; intros z Hl Hh.
  - exists []; split; reflexivity.
  - destruct z as [|hi [|lo z]]; simpl in Hl; try lia.
    replace (2 * S cnt)%nat with (S (S (2 * cnt))) in Hh by lia.
    cbn [firstn forallb] in Hh.
    apply andb_true_iff in Hh as [Hhi Hh].
    apply andb_true_iff in Hh as [Hlo Hh].
    destruct (IH z) as (k & Hk & Hlen); [lia | exact Hh |].
    unfold is_hex in Hhi, Hlo. cbn [hex_pairs].
    destruct (hexToInt hi) as [h|]; [|discriminate].
    destruct (hexToInt lo) as [l|]; [|discriminate].
    rewrite Hk. cbn [rbind]. eexists; split; [reflexivity|].
    simpl; rewrite Hlen; reflexivity.
Qed.

(** Characters behind the pairs that are decoded play no part. *)
Lemma hex_pairs_app (cnt : nat) (z rest : bytes) :
  (2 * cnt <= length z)%nat ->
  hex_pairs cnt (z ++ rest) = hex_pairs cnt z.
Proof.
  revert z; induction cnt as [|cnt IH]; intros z Hl.
  - reflexivity.
  - destruct z as [|hi [|lo z]]; simpl in Hl; try lia.
    cbn [hex_pairs app]. rewrite IH by lia. reflexivity.
Qed.

Lemma RAND_pseudo_bytes_ok (n : nat) (p : process) :
  RAND_pseudo_bytes n p
  = Ok (map (p_entropy p) (seq (p_drawn p) n),
        {| p_db := p_db p; p_entropy := p_entropy p;
           p_drawn := (p_drawn p + n)%nat; p_stdout := p_stdout p |}).
Proof. reflexivity. Qed.

Lemma lookup_db (db : sqlite3) (nDb : Z) (pDb : option Db) :
  0 <= nDb -> nth_error (aDb db) (Z.to_nat nDb) = Some pDb ->
  match nth_error (aDb db) (Z.to_nat nDb) with
  | Some pDb => if 0 <=? nDb then Ok pDb else Crash OutOfBounds
  | None => Crash OutOfBounds
  end = Ok pDb.
Proof.
  intros H0 ->. destruct (Z.leb_spec 0 nDb); [reflexivity | lia].
Qed.

Lemma attach_passphrase (p : process) (nDb : Z) (pDb : Db) (zKey : bytes)
  (nKey : Z) :
  starts_blob_literal zKey = false -> 0 < nKey <= len zKey -> 0 <= nDb ->
  nth_error (aDb (p_db p)) (Z.to_nat nDb) = Some (Some pDb) ->
  len (DIGEST (firstn (Z.to_nat nKey) zKey)) = EVP_CIPHER_key_length ->
  sqlite3CodecAttach nDb (Some zKey) nKey p
  = Ok (tt, attached nDb pDb (DIGEST (firstn (Z.to_nat nKey) zKey)) p).
Proof.
  intros Hlit Hn H0 Hdb Hlen. unfold sqlite3CodecAttach.
  destruct (Z.eqb_spec nKey 0); [lia|].
  run ltac:(reflexivity).
  run_lift ltac:(apply lookup_db; [exact H0 | exact Hdb]).
  run ltac:(apply RAND_pseudo_bytes_ok).
  rewrite Hlit.
  run ltac:(
    run_lift ltac:(unfold codec_passphrase_hash, EVP_DigestUpdate,
                     EVP_DigestInit_ex;
                   rewrite read_ok by lia; reflexivity);
    cbn [skipn Z.to_nat app];
    run_lift ltac:(apply write_whole; unfold sqlite3_malloc, len;
                   rewrite repeat_length;
                   pose proof key_length_nonneg; unfold len in Hlen; lia);
    run ltac:(rewrite Hlen, Z.eqb_refl; reflexivity);
    reflexivity).
  run ltac:(reflexivity).
  reflexivity.
Qed.

Lemma attach_blob (p : process) (nDb : Z) (pDb : Db) (zKey k : bytes)
  (nKey : Z) :
  starts_blob_literal zKey = true -> nKey <> 0 -> 0 <= nDb ->
  nth_error (aDb (p_db p)) (Z.to_nat nDb) = Some (Some pDb) ->
  Z.quot (nKey - 3) 2 = EVP_CIPHER_key_length ->
  sqlite3HexToBlob (skipn 2 zKey) (nKey - 3) = Ok k ->
  sqlite3CodecAttach nDb (Some zKey) nKey p = Ok (tt, attached nDb pDb k p).
Proof.
  intros Hlit Hn H0 Hdb Hq Hk. unfold sqlite3CodecAttach.
  destruct (Z.eqb_spec nKey 0); [lia|].
  run ltac:(reflexivity).
  run_lift ltac:(apply lookup_db; [exact H0 | exact Hdb]).
  run ltac:(apply RAND_pseudo_bytes_ok).
  rewrite Hlit.
  run ltac:(
    run ltac:(rewrite Hq, Z.eqb_refl; reflexivity);
    apply lift_ok; exact Hk).
  run ltac:(reflexivity).
  reflexivity.
Qed.

Lemma attach_blob_reject (p : process) (nDb : Z) (pDb : Db) (zKey : bytes)
  (nKey : Z) :
  starts_blob_literal zKey = true -> nKey <> 0 -> 0 <= nDb ->
  nth_error (aDb (p_db p)) (Z.to_nat nDb) = Some (Some pDb) ->
  Z.quot (nKey - 3) 2 <> EVP_CIPHER_key_length ->
  sqlite3CodecAttach nDb (Some zKey) nKey p = Crash AssertionFailed.
Proof.
  intros Hlit Hn H0 Hdb Hq. unfold sqlite3CodecAttach.
  destruct (Z.eqb_spec nKey 0); [lia|].
  run ltac:(reflexivity).
  run_lift ltac:(apply lookup_db; [exact H0 | exact Hdb]).
  run ltac:(apply RAND_pseudo_bytes_ok).
  rewrite Hlit.
  apply bind_crash. apply bind_crash.
  destruct (Z.eqb_spec (Z.quot (nKey - 3) 2) EVP_CIPHER_key_length);
    [contradiction | reflexivity].
Qed.

End Properties.

(** ** What a transform call leaves alone *)

Section Frames.
Context {Sch : Scheme}.

Lemma load_inv (ptr : pointer) (n : Z) (m m' : memory) (d : bytes) :
  load ptr n m = Ok (d, m') -> m' = m.
Proof.
  unfold load; intros H. unbind H as b s Hb.
  apply gets_inv in Hb as [-> ->]. apply lift_inv in H as [_ ->].
  reflexivity.
Qed.

Lemma store_keeps_rand (r : region) (off : Z) (d : bytes) (m m' : memory)
  (u : unit) :
  r <> CtxRand -> store (r, off) d m = Ok (u, m') ->
  rand (m_ctx m') = rand (m_ctx m).
Proof.
  unfold store; intros Hr H.
  unbind H as b s Hb. apply gets_inv in Hb as [-> ->].
  unbind H as b' s' Hb'. apply lift_inv in Hb' as [_ ->].
  apply modify_inv in H. subst m'.
  destruct r; try contradiction; reflexivity.
Qed.

Lemma memcpy_keeps_rand (r : region) (off : Z) (src : pointer) (n : Z)
  (m m' : memory) (u : unit) :
  r <> CtxRand -> memcpy (r, off) src n m = Ok (u, m') ->
  rand (m_ctx m') = rand (m_ctx m).
Proof.
  unfold memcpy; intros Hr H. unbind H as d s Hd.
  apply load_inv in Hd; subst s.
  eapply store_keeps_rand; eassumption.
Qed.

Lemma codec_cipher_keeps_rand (pgno : Z) (mode : bool) (size : Z)
  (in_ : pointer) (off : Z) (m m' : memory) (u : unit) :
  codec_cipher pgno mode size in_ (CtxBuffer, off) m = Ok (u, m') ->
  rand (m_ctx m') = rand (m_ctx m).
Proof.
  unfold codec_cipher; intros H.
  unbind H as ctx s0 H0. apply gets_inv in H0 as [-> ->].
  unbind H as iv s1 H1. destruct iv as [iv iv_sz].
  apply lift_inv in H1 as [_ ->].
  unbind H as ectx s2 H2. apply lift_inv in H2 as [_ ->].
  unbind H as src s3 H3. apply gets_inv in H3 as [-> ->].
  unbind H as upd s4 H4. destruct upd as [[produced tmp_csz] ectx'].
  apply lift_inv in H4 as [_ ->].
  unbind H as u5 s5 H5. apply store_keeps_rand in H5; [|discriminate].
  unbind H as u6 s6 H6. apply modify_inv in H6. subst s6.
  apply assert_inv in H as [_ ->].
  exact H5.
Qed.

(** Only a decrypt of page 1 stores into the salt. *)
Lemma sqlite3Codec_keeps_rand (pgno mode : Z) (m m' : memory) (ptr : pointer) :
  sqlite3Codec pgno mode m = Ok (ptr, m') ->
  pgno <> 1 \/ switch_mode mode <> Some false ->
  rand (m_ctx m') = rand (m_ctx m).
Proof.
  unfold sqlite3Codec; intros H Hcase.
  unbind H as ctx s0 H0. apply gets_inv in H0 as [-> ->].
  destruct (switch_mode mode) as [[|]|].
  - (* encrypt *)
    unbind H as u1 s1 H1. inversion H; subst; clear H.
    destruct (pgno =? 1).
    + unbind H1 as u2 s2 H2. apply memcpy_keeps_rand in H2; [|discriminate].
      unbind H1 as u3 s3 H3. apply memcpy_keeps_rand in H3; [|discriminate].
      apply codec_cipher_keeps_rand in H1. congruence.
    + apply codec_cipher_keeps_rand in H1. exact H1.
  - (* decrypt *)
    destruct (Z.eqb_spec pgno 1) as [E|E].
    + destruct Hcase as [Hc|Hc]; [contradiction | congruence].
    + unbind H as u1 s1 H1. apply codec_cipher_keeps_rand in H1.
      unbind H as u2 s2 H2. apply memcpy_keeps_rand in H2; [|discriminate].
      inversion H; subst; clear H. congruence.
  - inversion H; reflexivity.
Qed.

(** ** What attaching leaves alone *)

Lemma map_update_nth {A B} (f : A -> B) (n : nat) (x y : A) (l : list A) :
  nth_error l n = Some y -> f x = f y ->
  map f (update_nth n x l) = map f l.
Proof.
  intros Hn Hf. unfold update_nth.
  rewrite <- (firstn_skipn n l) at 3.
  rewrite !map_app. f_equal.
  assert (Hs : skipn n l = y :: skipn (S n) l).
  { clear Hf. revert l Hn; induction n as [|n IH]; intros [|z l] Hn;
      try discriminate.
    - inversion Hn; reflexivity.
    - simpl in Hn. apply IH in Hn. exact Hn. }
  rewrite Hs. simpl. rewrite Hf. reflexivity.
Qed.

Lemma nth_error_update_nth {A} (n : nat) (x : A) (l : list A) :
  (n < length l)%nat -> nth_error (update_nth n x l) n = Some x.
Proof.
  intros H. unfold update_nth.
  rewrite nth_error_app2 by (rewrite length_firstn; lia).
  rewrite length_firstn.
  replace (n - Nat.min n (length l))%nat with 0%nat by lia.
  reflexivity.
Qed.

Lemma attach_keeps_files (nDb : Z) (zKey : option bytes) (nKey : Z)
  (p p' : process) (u : unit) :
  sqlite3CodecAttach nDb zKey nKey p = Ok (u, p') ->
  files (p_db p') = files (p_db p).
Proof.
  unfold sqlite3CodecAttach; intros H.
  destruct zKey as [zKey|]; [|inversion H; reflexivity].
  destruct (nKey =? 0); [inversion H; reflexivity|].
  unbind H as db s0 H0. apply gets_inv in H0 as [-> ->].
  unbind H as pDb s1 H1. apply lift_inv in H1 as [H1 ->].
  destruct pDb as [pDb|]; [|inversion H; reflexivity].
  unbind H as salt s2 H2. inversion H2; subst; clear H2.
  unbind H as k s3 H3.
  assert (Hs3 : p_db s3 = p_db p).
  { destruct (starts_blob_literal zKey).
    - unbind H3 as u4 s4 H4. apply assert_inv in H4 as [_ ->].
      apply lift_inv in H3 as [_ ->]. reflexivity.
    - unbind H3 as md s4 H4. destruct md as [md_value md_sz].
      apply lift_inv in H4 as [_ ->].
      unbind H3 as k' s5 H5. apply lift_inv in H5 as [_ ->].
      unbind H3 as u6 s6 H6. apply assert_inv in H6 as [_ ->].
      inversion H3; subst; reflexivity. }
  unbind H as db' s4 H4. apply gets_inv in H4 as [-> ->].
  apply modify_inv in H. subst p'. cbn [set_db p_db]. rewrite Hs3.
  unfold files. cbn [aDb].
  destruct (nth_error (aDb (p_db p)) (Z.to_nat nDb)) as [e|] eqn:E;
    [|discriminate].
  destruct (0 <=? nDb); [|discriminate]. inversion H1; subst e.
  apply map_update_nth with (y := Some pDb); [exact E | reflexivity].
Qed.

Lemma key_loop_keeps_files (todo : nat) (i : Z) (pKey : option bytes)
  (nKey : Z) (p p' : process) (u : unit) :
  sqlite3_key_loop todo i pKey nKey p = Ok (u, p') ->
  files (p_db p') = files (p_db p).
Proof.
  revert i p; induction todo as [|todo IH]; intros i p H.
  - inversion H; reflexivity.
  - cbn [sqlite3_key_loop] in H. unbind H as u1 s1 H1.
    apply attach_keeps_files in H1. apply IH in H. congruence.
Qed.

Lemma sqlite3_key_keeps_files (db : bool) (pKey : option bytes) (nKey : Z)
  (p p' : process) (u : unit) :
  sqlite3_key db pKey nKey p = Ok (u, p') ->
  files (p_db p') = files (p_db p).
Proof.
  unfold sqlite3_key; intros H. destruct db; [|inversion H; reflexivity].
  unbind H as n s0 H0. apply gets_inv in H0 as [-> ->].
  eapply key_loop_keeps_files; eassumption.
Qed.

(** What is already on the standard output plays no part in attaching. *)
Lemma attach_stdout (nDb : Z) (zKey : option bytes) (nKey : Z)
  (msg : String.string) (p : process) :
  sqlite3CodecAttach nDb zKey nKey (add_stdout msg p)
  = match sqlite3CodecAttach nDb zKey nKey p with
    | Ok (u, p') => Ok (u, add_stdout msg p')
    | Crash f => Crash f
    end.
Proof.
  unfold sqlite3CodecAttach.
  destruct zKey as [zKey|]; [|reflexivity].
  destruct (nKey =? 0); [reflexivity|].
  unfold bind, gets, lift, modify, assert, ret, RAND_pseudo_bytes.
  cbn [add_stdout p_db p_entropy p_drawn p_stdout].
  destruct (nth_error (aDb (p_db p)) (Z.to_nat nDb)) as [[pDb|]|];
    try reflexivity;
    destruct (0 <=? nDb); try reflexivity.
  destruct (starts_blob_literal zKey).
  - destruct (Z.quot (nKey - 3) 2 =? EVP_CIPHER_key_length); [|reflexivity].
    destruct (sqlite3HexToBlob (skipn 2 zKey) (nKey - 3)); reflexivity.
  - destruct (codec_passphrase_hash zKey nKey) as [[md_value md_sz]|];
      [|reflexivity].
    destruct (write (sqlite3_malloc EVP_CIPHER_key_length) 0 md_value);
      [|reflexivity].
    destruct (md_sz =? EVP_CIPHER_key_length); reflexivity.
Qed.

Lemma key_loop_stdout (todo : nat) (i : Z) (pKey : option bytes) (nKey : Z)
  (msg : String.string) (p : process) :
  sqlite3_key_loop todo i pKey nKey (add_stdout msg p)
  = match sqlite3_key_loop todo i pKey nKey p with
    | Ok (u, p') => Ok (u, add_stdout msg p')
    | Crash f => Crash f
    end.
Proof.
  revert i p; induction todo as [|todo IH]; intros i p.
  - reflexivity.
  - cbn [sqlite3_key_loop]. unfold bind. rewrite attach_stdout.
    destruct (sqlite3CodecAttach i pKey nKey p) as [[u p1]|f];
      [apply IH | reflexivity].
Qed.

Lemma sqlite3_key_stdout (db : bool) (pKey : option bytes) (nKey : Z)
  (msg : String.string) (p : process) :
  sqlite3_key db pKey nKey (add_stdout msg p)
  = match sqlite3_key db pKey nKey p with
    | Ok (u, p') => Ok (u, add_stdout msg p')
    | Crash f => Crash f
    end.
Proof.
  unfold sqlite3_key. destruct db; [|reflexivity].
  unfold bind, gets. cbn [add_stdout p_db]. apply key_loop_stdout.
Qed.

(** After an attach the pager holds the context just built. *)
Lemma codec_of_attached (nDb : Z) (pDb : Db) (e : option Db) (k : bytes)
  (p : process) :
  nth_error (aDb (p_db p)) (Z.to_nat nDb) = Some e ->
  codec_of (p_db (attached nDb pDb k p)) nDb
  = Some (fresh_ctx pDb k (map (p_entropy p) (seq (p_drawn p) 16))).
Proof.
  intros Hn. unfold codec_of, attached. cbn [p_db aDb].
  rewrite nth_error_update_nth.
  - reflexivity.
  - apply nth_error_Some. rewrite Hn. discriminate.
Qed.

End Frames.

(** The sample scheme meets the assumptions. *)
Lemma Sample_laws : SchemeLaws Sample.scheme.
Proof.
  constructor; cbn.
  - lia.
  - lia.
  - intros k b Hk Hb. unfold len in *.
    rewrite length_rev, length_xor_bytes. lia.
  - intros k c Hk Hc. unfold len in *.
    rewrite length_xor_bytes, length_rev. lia.
  - intros k b Hk Hb. rewrite rev_involutive.
    apply xor_bytes_cancel. unfold len in *; lia.
  - intros m. unfold Sample.digest8, len. cbn. lia.
  - vm_compute. discriminate.
Qed.

(** * The claims of the design document *)

(** The three parts of a page-1 image: sixteen bytes, eight bytes, the
    rest. *)
Lemma page1_parts (h s t : bytes) :
  length h = 16%nat -> length s = 8%nat ->
  firstn 16 ((h ++ s) ++ t) = h /\
  firstn 8 (skipn 16 ((h ++ s) ++ t)) = s /\
  skipn 24 ((h ++ s) ++ t) = t.
Proof.
  intros Hh Hs. rewrite <- app_assoc. repeat split.
  - rewrite firstn_app, Hh. simpl firstn at 2.
    rewrite app_nil_r. apply firstn_all2; lia.
  - rewrite skipn_app, Hh, skipn_all2 by lia. simpl skipn. cbn [app].
    rewrite firstn_app, Hs. simpl firstn at 2.
    rewrite app_nil_r. apply firstn_all2; lia.
  - rewrite skipn_app, Hh, skipn_all2 by lia. cbn [app].
    replace (24 - 16)%nat with 8%nat by lia.
    rewrite skipn_app, Hs, skipn_all2 by lia. reflexivity.
Qed.

Lemma header_tail (b : bytes) :
  24 <= len b ->
  length (skipn 16 (firstn 24 b)) = 8%nat /\
  skipn 16 (firstn 24 b) = firstn 8 (skipn 16 b).
Proof.
  intros H. split.
  - rewrite length_skipn, length_firstn24 by lia. reflexivity.
  - rewrite skipn_firstn_comm. reflexivity.
Qed.

Section Claims.
Context {Sch : Scheme}.
Context {Laws : SchemeLaws Sch}.

Local Abbreviation bs := EVP_CIPHER_block_size.

(** C1, as the source has it.  A decrypt of page 1 stores bytes 0-15 of the
    page read from disk in the salt of the context.  In the scratch buffer,
    bytes 16-23 are those of the disk page, but bytes 0-15 are the magic
    string [SQLITE_FILE_HEADER], not the bytes on disk.  Only bytes 24 to
    the end of the page go through the cipher, in decrypt direction, under
    the key and the IV derived from the salt just stored and page number 1;
    the result lands at the same offset of the scratch buffer, and the
    scratch buffer is copied back to the page of the caller. *)
Theorem C1_page1_decrypt (m : memory) (mode : Z) :
  switch_mode mode = Some false -> well_formed m -> page_fits 1 m ->
  exists m',
    sqlite3Codec 1 mode m = Ok ((PData, 0), m') /\
    rand (m_ctx m') = firstn 16 (m_pData m) /\
    firstn 16 (buffer (m_ctx m')) = firstn 16 SQLITE_FILE_HEADER /\
    firstn 8 (skipn 16 (buffer (m_ctx m')))
      = firstn 8 (skipn 16 (m_pData m)) /\
    skipn 24 (buffer (m_ctx m'))
      = transform (key (m_ctx m)) (derive_iv (firstn 16 (m_pData m)) 1)
                  false (skipn 24 (m_pData m)) /\
    m_evp m'
      = m_evp m ++ [run_of m (firstn 16 (m_pData m)) 1 false
                           (skipn 24 (m_pData m))] /\
    m_pData m' = buffer (m_ctx m').
Proof.
  intros Hmode Hwf Hfit.
  pose proof Hwf as (Hk & Hr & Hb & Hp).
  pose proof Hfit as [Hpos _]. cbn [Z.eqb Pos.eqb] in Hpos.
  unfold HDR_SZ in Hpos.
  pose proof SQLITE_FILE_HEADER_length as Hh.
  eexists; split; [apply sqlite3Codec_decrypt_page1; assumption|].
  proj_mem.
  destruct (header_tail (m_pData m)) as [Hl8 He8]; [lia|].
  destruct (page1_parts (firstn 16 SQLITE_FILE_HEADER)
              (skipn 16 (firstn 24 (m_pData m)))
              (transform (key (m_ctx m))
                 (derive_iv (firstn 16 (m_pData m)) 1) false
                 (skipn 24 (m_pData m)))) as (P1 & P2 & P3).
  { unfold len in Hh; rewrite length_firstn; lia. }
  { exact Hl8. }
  repeat split; try reflexivity; try assumption.
  rewrite P2. exact He8.
Qed.

(** C2, as the source has it.  An encrypt of page 1 puts the salt of the
    context in bytes 0-15 of the scratch buffer and copies bytes 16-23 of
    the page of the caller there unchanged (they are not a constant of the
    codec); bytes 24 to the end of the page are encrypted into the same
    offset of the scratch buffer under the key and the IV derived from the
    salt and page number 1.  The salt is left as it was. *)
Theorem C2_page1_encrypt (m : memory) (mode : Z) :
  switch_mode mode = Some true -> well_formed m -> page_fits 1 m ->
  exists m',
    sqlite3Codec 1 mode m = Ok ((CtxBuffer, 0), m') /\
    firstn 16 (buffer (m_ctx m')) = rand (m_ctx m) /\
    firstn 8 (skipn 16 (buffer (m_ctx m')))
      = firstn 8 (skipn 16 (m_pData m)) /\
    skipn 24 (buffer (m_ctx m'))
      = transform (key (m_ctx m)) (derive_iv (rand (m_ctx m)) 1)
                  true (skipn 24 (m_pData m)) /\
    m_evp m'
      = m_evp m ++ [run_of m (rand (m_ctx m)) 1 true
                           (skipn 24 (m_pData m))] /\
    rand (m_ctx m') = rand (m_ctx m).
Proof.
  intros Hmode Hwf Hfit.
  pose proof Hwf as (Hk & Hr & Hb & Hp).
  pose proof Hfit as [Hpos _]. cbn [Z.eqb Pos.eqb] in Hpos.
  unfold HDR_SZ in Hpos.
  eexists; split; [apply sqlite3Codec_encrypt_page1; assumption|].
  proj_mem.
  destruct (header_tail (m_pData m)) as [Hl8 He8]; [lia|].
  destruct (page1_parts (rand (m_ctx m))
              (skipn 16 (firstn 24 (m_pData m)))
              (transform (key (m_ctx m)) (derive_iv (rand (m_ctx m)) 1) true
                 (skipn 24 (m_pData m)))) as (P1 & P2 & P3).
  { unfold len in Hr; lia. }
  { exact Hl8. }
  repeat split; try reflexivity; try assumption.
  rewrite P2. exact He8.
Qed.

(** C3.  For every key of the length of the cipher, every IV that covers a
    block and every payload of whole blocks, decrypting what was encrypted
    under the same key and IV gives the payload back; and so it is through
    [codec_cipher]: encrypting the payload of the caller's page into the
    scratch buffer and running [codec_cipher] in decrypt mode over those
    bytes, in the same context and for the same page number, leaves the
    payload in the scratch buffer. *)
Theorem C3_cipher_round_trip (k v p : bytes) (m : memory) (pgno : Z)
  (hd a c : bytes) :
  len k = EVP_CIPHER_key_length -> bs <= len v ->
  0 < len p -> len p mod bs = 0 ->
  key (m_ctx m) = k -> len (rand (m_ctx m)) = 16 ->
  m_pData m = hd ++ p -> buffer (m_ctx m) = a ++ c ->
  len a = len hd -> len c = len p ->
  transform k v false (transform k v true p) = p /\
  exists m1 m2,
    codec_cipher pgno true (len p) (PData, len hd) (CtxBuffer, len hd) m
      = Ok (tt, m1) /\
    codec_cipher pgno false (len p) (PData, len hd) (CtxBuffer, len hd)
                 (set_region PData (buffer (m_ctx m1)) m1)
      = Ok (tt, m2) /\
    skipn (Z.to_nat (len hd)) (buffer (m_ctx m2)) = p.
Proof.
  intros Hk Hv Hpos Hmod Hkey Hr Hp Hb Ha Hc.
  pose proof (DIGEST_covers_iv (rand (m_ctx m) ++ Pgno_bytes pgno)) as Hiv.
  fold (derive_iv (rand (m_ctx m)) pgno) in Hiv.
  split; [apply transform_round_trip; assumption|].
  subst k.
  set (ct := transform (key (m_ctx m)) (derive_iv (rand (m_ctx m)) pgno)
                       true p).
  assert (Hct : len ct = len p)
    by (apply transform_length; assumption).
  eexists; eexists; split; [|split].
  - apply codec_cipher_at with (p := hd) (d := p) (a := a) (c := c);
      try assumption; reflexivity.
  - fold ct.
    apply codec_cipher_at with (p := a) (d := ct) (a := a) (c := ct);
      proj_mem; try assumption; try reflexivity; try lia.
  - proj_mem. rewrite <- Ha, skipn_len_app.
    apply transform_round_trip; assumption.
Qed.

(** C4.  A transform call in encrypt mode returns the scratch buffer of the
    context and leaves the page of the caller as it was.  A call in decrypt
    mode returns the page of the caller, which then holds what the scratch
    buffer holds: the decryption of the whole page, or for page 1 the
    decryption of what follows the 24 byte header. *)
Theorem C4_return_convention (m : memory) (pgno mode : Z) :
  well_formed m -> page_fits pgno m ->
  (switch_mode mode = Some true ->
   exists m',
     sqlite3Codec pgno mode m = Ok ((CtxBuffer, 0), m') /\
     m_pData m' = m_pData m) /\
  (switch_mode mode = Some false ->
   exists m',
     sqlite3Codec pgno mode m = Ok ((PData, 0), m') /\
     m_pData m' = buffer (m_ctx m') /\
     (pgno <> 1 ->
      m_pData m' = transform (key (m_ctx m))
                     (derive_iv (rand (m_ctx m)) pgno) false (m_pData m)) /\
     (pgno = 1 ->
      skipn 24 (m_pData m')
      = transform (key (m_ctx m)) (derive_iv (firstn 16 (m_pData m)) 1)
                  false (skipn 24 (m_pData m)))).
Proof.
  intros Hwf Hfit. split; intros Hmode.
  - destruct (Z.eq_dec pgno 1) as [->|Hpg].
    + eexists; split; [apply sqlite3Codec_encrypt_page1; assumption|].
      reflexivity.
    + eexists; split; [apply sqlite3Codec_encrypt_page; assumption|].
      reflexivity.
  - destruct (Z.eq_dec pgno 1) as [->|Hpg].
    + eexists; split; [apply sqlite3Codec_decrypt_page1; assumption|].
      proj_mem. split; [reflexivity|]. split; [intros H; contradiction|].
      intros _.
      pose proof Hwf as (Hk & Hr & Hb & Hp).
      pose proof Hfit as [Hpos _]. cbn [Z.eqb Pos.eqb] in Hpos.
      unfold HDR_SZ in Hpos.
      pose proof SQLITE_FILE_HEADER_length as Hh.
      apply page1_parts.
      * unfold len in Hh; rewrite length_firstn; lia.
      * apply header_tail; lia.
    + eexists; split; [apply sqlite3Codec_decrypt_page; assumption|].
      proj_mem. split; [reflexivity|]. split; [reflexivity|].
      intros H; contradiction.
Qed.

(** C5.  The IV of a page is the digest of the 16 byte salt followed by the
    bytes of the page number: [codec_page_hash] returns exactly
    [derive_iv salt pgno].  It is a function of the salt and the page
    number alone: two calls that are handed buffers starting with the same
    16 bytes, for the same page number, return the same IV. *)
Theorem C5_iv_derivation (pgno : Z) (salt in1 in2 : bytes) :
  len salt = 16 ->
  16 <= len in1 -> 16 <= len in2 ->
  firstn 16 in1 = salt -> firstn 16 in2 = salt ->
  codec_page_hash pgno salt 16
    = Ok (derive_iv salt pgno, len (derive_iv salt pgno)) /\
  derive_iv salt pgno = DIGEST (salt ++ Pgno_bytes pgno) /\
  codec_page_hash pgno in1 16 = codec_page_hash pgno in2 16.
Proof.
  intros Hs H1 H2 E1 E2. repeat split.
  - rewrite codec_page_hash_eq by lia.
    change (Z.to_nat 16) with 16%nat. rewrite (firstn16 _ Hs). reflexivity.
  - rewrite !codec_page_hash_eq by lia.
    change (Z.to_nat 16) with 16%nat. rewrite E1, E2. reflexivity.
Qed.

(** C6, as the source has it.  For a credential [x'<digits>'] attach
    compares half the number of digits (integer division) with the key
    length of the cipher in an [assert]: when they differ the assertion
    stops the program, no error value is returned.  When the number of hex
    digits is twice the key length, attach succeeds and the key of the new
    context is the hex decoding of the digits, of exactly the key length. *)
Theorem C6_blob_literal (p : process) (nDb : Z) (pDb : Db) (digits : bytes) :
  0 <= nDb ->
  nth_error (aDb (p_db p)) (Z.to_nat nDb) = Some (Some pDb) ->
  let zKey := "x"%byte :: "'"%byte :: digits ++ ["'"%byte] in
  let nKey := len zKey in
  (Z.quot (len digits) 2 <> EVP_CIPHER_key_length ->
   sqlite3CodecAttach nDb (Some zKey) nKey p = Crash AssertionFailed) /\
  (len digits = 2 * EVP_CIPHER_key_length ->
   forallb is_hex digits = true ->
   exists k,
     sqlite3HexToBlob digits (len digits) = Ok k /\
     len k = EVP_CIPHER_key_length /\
     sqlite3CodecAttach nDb (Some zKey) nKey p
       = Ok (tt, attached nDb pDb k p) /\
     option_map key (codec_of (p_db (attached nDb pDb k p)) nDb) = Some k).
Proof.
  intros H0 Hdb zKey nKey.
  assert (HnKey : nKey - 3 = len digits).
  { subst nKey zKey. unfold len. cbn [length].
    rewrite length_app. cbn [length]. lia. }
  assert (Hnz : nKey <> 0) by (pose proof (len_nonneg digits); lia).
  split.
  - intros Hq. apply attach_blob_reject with (pDb := pDb);
      try assumption; try reflexivity.
    rewrite HnKey. exact Hq.
  - intros Hlen Hhex.
    pose proof key_length_nonneg as Hkl.
    assert (Hcnt : Z.to_nat (Z.quot (len digits) 2)
                   = Z.to_nat EVP_CIPHER_key_length).
    { rewrite Hlen. rewrite Z.mul_comm, Z.quot_mul by lia. reflexivity. }
    assert (Hfit : (2 * Z.to_nat EVP_CIPHER_key_length <= length digits)%nat)
      by (unfold len in Hlen; lia).
    destruct (hex_pairs_ok (Z.to_nat EVP_CIPHER_key_length) digits)
      as (k & Hk & Hkl'); [exact Hfit | |].
    { rewrite firstn_all2 by (unfold len in Hlen; lia). exact Hhex. }
    exists k. split; [|split; [|split]].
    + unfold sqlite3HexToBlob. rewrite Hcnt. exact Hk.
    + unfold len. rewrite Hkl'. lia.
    + apply attach_blob; try assumption; try reflexivity.
      * rewrite HnKey, Hlen, Z.mul_comm, Z.quot_mul by lia. reflexivity.
      * rewrite HnKey. unfold sqlite3HexToBlob. rewrite Hcnt.
        subst zKey. cbn [skipn]. rewrite hex_pairs_app by exact Hfit.
        exact Hk.
    + rewrite codec_of_attached with (e := Some pDb) by exact Hdb.
      reflexivity.
Qed.

(** C7, as the source has it.  Attach does not look for a context already
    held by the pager: on a handle that has one, an attach with a
    passphrase succeeds all the same, and the pager then holds the context
    just built (key: the digest of the passphrase; salt: sixteen fresh
    bytes of the generator) in place of the former one. *)
Theorem C7_attach_twice (p : process) (nDb : Z) (pDb : Db) (old : codec_ctx)
  (zKey : bytes) (nKey : Z) :
  0 <= nDb ->
  nth_error (aDb (p_db p)) (Z.to_nat nDb) = Some (Some pDb) ->
  pCodecArg (db_Pager pDb) = Some old ->
  starts_blob_literal zKey = false -> 0 < nKey <= len zKey ->
  len (DIGEST (firstn (Z.to_nat nKey) zKey)) = EVP_CIPHER_key_length ->
  let k := DIGEST (firstn (Z.to_nat nKey) zKey) in
  sqlite3CodecAttach nDb (Some zKey) nKey p = Ok (tt, attached nDb pDb k p) /\
  codec_of (p_db p) nDb = Some old /\
  codec_of (p_db (attached nDb pDb k p)) nDb
  = Some (fresh_ctx pDb k (map (p_entropy p) (seq (p_drawn p) 16))).
Proof.
  intros H0 Hdb Hold Hlit Hn Hlen k. split; [|split].
  - apply attach_passphrase; assumption.
  - unfold codec_of. rewrite Hdb. exact Hold.
  - apply codec_of_attached with (e := Some pDb). exact Hdb.
Qed.

(** C8, as the source has it.  The salt of the context is stored into by
    decrypt calls for page 1 and by no other call: whatever the page number
    and the mode, a call that is not a decrypt of page 1 returns with the
    salt it found.  Every decrypt of page 1, the first and any later one,
    sets the salt to bytes 0-15 of the page it is handed. *)
Theorem C8_salt_updates (m : memory) (pgno mode : Z) :
  (forall ptr m',
     sqlite3Codec pgno mode m = Ok (ptr, m') ->
     pgno <> 1 \/ switch_mode mode <> Some false ->
     rand (m_ctx m') = rand (m_ctx m)) /\
  (well_formed m -> page_fits pgno m ->
   exists ptr m',
     sqlite3Codec pgno mode m = Ok (ptr, m') /\
     rand (m_ctx m')
     = match switch_mode mode with
       | Some false =>
           if pgno =? 1 then firstn 16 (m_pData m) else rand (m_ctx m)
       | _ => rand (m_ctx m)
       end).
Proof.
  split.
  - intros ptr m' H Hcase. eapply sqlite3Codec_keeps_rand; eassumption.
  - intros Hwf Hfit.
    destruct (switch_mode mode) as [[|]|] eqn:Hmode.
    + destruct (Z.eq_dec pgno 1) as [->|Hpg].
      * eexists; eexists; split;
          [apply sqlite3Codec_encrypt_page1; assumption | reflexivity].
      * eexists; eexists; split;
          [apply sqlite3Codec_encrypt_page; assumption | reflexivity].
    + destruct (Z.eqb_spec pgno 1) as [->|Hpg].
      * eexists; eexists; split;
          [apply sqlite3Codec_decrypt_page1; assumption | reflexivity].
      * eexists; eexists; split;
          [apply sqlite3Codec_decrypt_page; assumption | reflexivity].
    + exists (PData, 0), m. split; [|reflexivity].
      unfold sqlite3Codec, bind, gets. rewrite Hmode. reflexivity.
Qed.

(** C9.  [sqlite3_rekey] prints its notice and then does what [sqlite3_key]
    does: its outcome is the outcome of [sqlite3_key] on the same
    connection with the notice added to the standard output, so each open
    database gets a context freshly derived from the new credential.  No
    page is decrypted or encrypted on the way: the pages of the database
    files are what they were. *)
Theorem C9_rekey_in_memory_only (db : bool) (pKey : option bytes) (nKey : Z)
  (p : process) :
  sqlite3_rekey db pKey nKey p
  = match sqlite3_key db pKey nKey p with
    | Ok (u, p') => Ok (u, add_stdout rekey_notice p')
    | Crash f => Crash f
    end /\
  (forall u p',
     sqlite3_rekey db pKey nKey p = Ok (u, p') ->
     files (p_db p') = files (p_db p)).
Proof.
  assert (E : sqlite3_rekey db pKey nKey p
              = sqlite3_key db pKey nKey (add_stdout rekey_notice p))
    by reflexivity.
  split.
  - rewrite E. apply sqlite3_key_stdout.
  - intros u p' H. rewrite E in H.
    apply sqlite3_key_keeps_files in H. exact H.
Qed.

(** C10.  For a mode outside 0, 2, 3, 6 and 7 the transform returns the
    pointer of the caller and leaves the memory as it is: context, page and
    the list of cipher runs.  Modes 2 and 3 do what mode 0 does and mode 7
    does what mode 6 does; modes 0, 2 and 3 run the cipher once in decrypt
    direction and return the page of the caller, modes 6 and 7 run it once
    in encrypt direction and return the scratch buffer. *)
Theorem C10_modes (m : memory) (pgno mode : Z) :
  (mode <> 0 /\ mode <> 2 /\ mode <> 3 /\ mode <> 6 /\ mode <> 7 ->
   sqlite3Codec pgno mode m = Ok ((PData, 0), m)) /\
  (sqlite3Codec pgno 2 m = sqlite3Codec pgno 0 m /\
   sqlite3Codec pgno 3 m = sqlite3Codec pgno 0 m /\
   sqlite3Codec pgno 7 m = sqlite3Codec pgno 6 m) /\
  (well_formed m -> page_fits pgno m ->
   (mode = 0 \/ mode = 2 \/ mode = 3 ->
    exists m' op,
      sqlite3Codec pgno mode m = Ok ((PData, 0), m') /\
      m_evp m' = m_evp m ++ [op] /\ op_encrypt op = false) /\
   (mode = 6 \/ mode = 7 ->
    exists m' op,
      sqlite3Codec pgno mode m = Ok ((CtxBuffer, 0), m') /\
      m_evp m' = m_evp m ++ [op] /\ op_encrypt op = true)).
Proof.
  split; [|split].
  - intros H. apply switch_mode_default in H.
    unfold sqlite3Codec, bind, gets. rewrite H. reflexivity.
  - repeat split; reflexivity.
  - intros Hwf Hfit. split; intros Hmode.
    + apply switch_mode_decrypt in Hmode.
      destruct (Z.eq_dec pgno 1) as [->|Hpg].
      * eexists; eexists; split;
          [apply sqlite3Codec_decrypt_page1; assumption|].
        split; reflexivity.
      * eexists; eexists; split;
          [apply sqlite3Codec_decrypt_page; assumption|].
        split; reflexivity.
    + apply switch_mode_encrypt in Hmode.
      destruct (Z.eq_dec pgno 1) as [->|Hpg].
      * eexists; eexists; split;
          [apply sqlite3Codec_encrypt_page1; assumption|].
        split; reflexivity.
      * eexists; eexists; split;
          [apply sqlite3Codec_encrypt_page; assumption|].
        split; reflexivity.
Qed.

End Claims.

(** * The claims on the sample scheme

    Each theorem above is applied to a concrete call on 512 byte pages, and
    each statement of the design document that the source does not follow
    is refuted on such a call. *)

#[local] Existing Instance Sample.scheme.
#[local] Existing Instance Sample_laws.

Lemma sample_well_formed (s page : bytes) :
  len s = 16 -> len page = 512 ->
  well_formed (Sample.mem512 s page).
Proof.
  intros Hs Hp. repeat split; try assumption; reflexivity.
Qed.

Lemma sample_page_fits (pgno : Z) (s page : bytes) :
  page_fits pgno (Sample.mem512 s page).
Proof.
  unfold page_fits. destruct (pgno =? 1); split; reflexivity.
Qed.

(** C1 on the sample: reading page 1 of a file whose salt is [salt16']
    into a context that held [salt16]. *)
Lemma C1_page1_decrypt_witness :
  exists m',
    sqlite3Codec 1 0 (Sample.mem512 Sample.salt16 Sample.disk1)
      = Ok ((PData, 0), m') /\
    rand (m_ctx m') = Sample.salt16' /\
    firstn 16 (buffer (m_ctx m')) = Sample.magic /\
    m_pData m' = buffer (m_ctx m').
Proof.
  destruct (C1_page1_decrypt (Sample.mem512 Sample.salt16 Sample.disk1) 0)
    as (m' & Hrun & Hsalt & Hmagic & _ & _ & _ & Hback).
  - reflexivity.
  - apply sample_well_formed; reflexivity.
  - apply sample_page_fits.
  - exists m'. repeat split; assumption.
Defined.

(** The statement of C1 fails on that call: after it, the first 24 bytes of
    the scratch buffer are not the 24 bytes read from disk. *)
Lemma C1_counterexample :
  exists m',
    sqlite3Codec 1 0 (Sample.mem512 Sample.salt16 Sample.disk1)
      = Ok ((PData, 0), m') /\
    firstn 24 (buffer (m_ctx m')) <> firstn 24 Sample.disk1.
Proof.
  eexists; split.
  - apply sqlite3Codec_decrypt_page1.
    + reflexivity.
    + apply sample_well_formed; reflexivity.
    + apply sample_page_fits.
  - vm_compute. discriminate.
Qed.

(** C2 on the sample: writing page 1. *)
Lemma C2_page1_encrypt_witness :
  exists m',
    sqlite3Codec 1 6 (Sample.mem512 Sample.salt16 Sample.plain1)
      = Ok ((CtxBuffer, 0), m') /\
    firstn 16 (buffer (m_ctx m')) = Sample.salt16 /\
    firstn 8 (skipn 16 (buffer (m_ctx m')))
      = firstn 8 (skipn 16 Sample.plain1).
Proof.
  destruct (C2_page1_encrypt (Sample.mem512 Sample.salt16 Sample.plain1) 6)
    as (m' & Hrun & Hsalt & Hhdr & _).
  - reflexivity.
  - apply sample_well_formed; reflexivity.
  - apply sample_page_fits.
  - exists m'. repeat split; assumption.
Defined.

(** The statement of C2 fails: two pages that differ in bytes 16 and 17
    (the page size field) leave different bytes 16-23 in the scratch
    buffer, so these bytes are no fixed header. *)
Lemma C2_counterexample :
  exists m1 m2,
    sqlite3Codec 1 6 (Sample.mem512 Sample.salt16 Sample.plain1)
      = Ok ((CtxBuffer, 0), m1) /\
    sqlite3Codec 1 6 (Sample.mem512 Sample.salt16 Sample.plain1')
      = Ok ((CtxBuffer, 0), m2) /\
    firstn 8 (skipn 16 (buffer (m_ctx m1)))
      <> firstn 8 (skipn 16 (buffer (m_ctx m2))).
Proof.
  eexists; eexists; split; [|split].
  - apply sqlite3Codec_encrypt_page1;
      [reflexivity | apply sample_well_formed; reflexivity
      | apply sample_page_fits].
  - apply sqlite3Codec_encrypt_page1;
      [reflexivity | apply sample_well_formed; reflexivity
      | apply sample_page_fits].
  - vm_compute. discriminate.
Qed.

(** C3 on the sample: page 2 through the cipher and back. *)
Lemma C3_cipher_round_trip_witness :
  transform Sample.key8 (derive_iv Sample.salt16 2) false
    (transform Sample.key8 (derive_iv Sample.salt16 2) true Sample.plain2)
  = Sample.plain2 /\
  exists m1 m2,
    codec_cipher 2 true 512 (PData, 0) (CtxBuffer, 0)
                 (Sample.mem512 Sample.salt16 Sample.plain2) = Ok (tt, m1) /\
    codec_cipher 2 false 512 (PData, 0) (CtxBuffer, 0)
                 (set_region PData (buffer (m_ctx m1)) m1) = Ok (tt, m2) /\
    buffer (m_ctx m2) = Sample.plain2.
Proof.
  apply (C3_cipher_round_trip Sample.key8 (derive_iv Sample.salt16 2)
           Sample.plain2 (Sample.mem512 Sample.salt16 Sample.plain2) 2
           [] [] (repeat x00 512)); reflexivity || (vm_compute; discriminate).
Defined.

(** C4 on the sample: a write and a read of page 2. *)
Lemma C4_return_convention_witness :
  (exists m',
     sqlite3Codec 2 6 (Sample.mem512 Sample.salt16 Sample.plain2)
       = Ok ((CtxBuffer, 0), m') /\
     m_pData m' = Sample.plain2) /\
  (exists m',
     sqlite3Codec 2 0 (Sample.mem512 Sample.salt16 Sample.plain2)
       = Ok ((PData, 0), m') /\
     m_pData m' = buffer (m_ctx m')).
Proof.
  split.
  - apply (proj1 (C4_return_convention
                    (Sample.mem512 Sample.salt16 Sample.plain2) 2 6
                    (sample_well_formed Sample.salt16 Sample.plain2 eq_refl eq_refl)
                    (sample_page_fits 2 Sample.salt16 Sample.plain2)) eq_refl).
  - destruct (proj2 (C4_return_convention
                       (Sample.mem512 Sample.salt16 Sample.plain2) 2 0
                       (sample_well_formed Sample.salt16 Sample.plain2 eq_refl eq_refl)
                       (sample_page_fits 2 Sample.salt16 Sample.plain2)) eq_refl)
      as (m' & Hrun & Hback & _).
    exists m'; split; assumption.
Defined.

(** C5 on the sample: the IV of page 7, from the salt alone and from the
    first bytes of two pages that start with it. *)
Lemma C5_iv_derivation_witness :
  codec_page_hash 7 Sample.salt16' 16
    = Ok (derive_iv Sample.salt16' 7, len (derive_iv Sample.salt16' 7)) /\
  derive_iv Sample.salt16' 7 = DIGEST (Sample.salt16' ++ Pgno_bytes 7) /\
  codec_page_hash 7 Sample.disk1 16
    = codec_page_hash 7 (Sample.salt16' ++ Sample.passphrase) 16.
Proof.
  apply (C5_iv_derivation 7 Sample.salt16' Sample.disk1
           (Sample.salt16' ++ Sample.passphrase));
    reflexivity || (vm_compute; discriminate).
Defined.

(** C6 on the sample (the key is eight bytes long): a literal of four
    digits trips the assertion, a literal of sixteen digits is decoded. *)
Lemma C6_blob_literal_witness :
  sqlite3CodecAttach 0 (Some Sample.blob4) (len Sample.blob4)
                     (Sample.proc None)
    = Crash AssertionFailed /\
  sqlite3CodecAttach 0 (Some Sample.blob16) (len Sample.blob16)
                     (Sample.proc None)
    = Ok (tt, attached 0 (Sample.main_db None)
                       [x01; x23; x45; x67; x89; xab; xcd; xef]
                       (Sample.proc None)).
Proof.
  split.
  - apply (proj1 (C6_blob_literal (Sample.proc None) 0 (Sample.main_db None)
                    (list_byte_of_string "0123")
                    ltac:(discriminate) eq_refl)).
    vm_compute. discriminate.
  - destruct (proj2 (C6_blob_literal (Sample.proc None) 0
                       (Sample.main_db None)
                       (list_byte_of_string "0123456789abcdef")
                       ltac:(discriminate) eq_refl) eq_refl eq_refl)
      as (k & Hk & _ & Hrun & _).
    vm_compute in Hk. injection Hk as <-. exact Hrun.
Defined.

(** The statement of C6 fails: a literal of seventeen digits, not twice the
    key length, is accepted; the key is decoded from its first sixteen
    digits. *)
Lemma C6_counterexample :
  sqlite3CodecAttach 0 (Some Sample.blob17) (len Sample.blob17)
                     (Sample.proc None)
    = Ok (tt, attached 0 (Sample.main_db None)
                       [x01; x23; x45; x67; x89; xab; xcd; xef]
                       (Sample.proc None)) /\
  len Sample.blob17 - 3 = 17 /\
  17 <> 2 * EVP_CIPHER_key_length.
Proof.
  split; [|split].
  - apply attach_blob; try reflexivity; vm_compute; discriminate.
  - reflexivity.
  - vm_compute. discriminate.
Qed.

(** C7 on the sample: a passphrase attach on a connection whose main
    database already has a context. *)
Lemma C7_attach_twice_witness :
  sqlite3CodecAttach 0 (Some Sample.passphrase) (len Sample.passphrase)
                     (Sample.proc (Some (Sample.ctx512 Sample.salt16)))
    = Ok (tt, attached 0 (Sample.main_db (Some (Sample.ctx512 Sample.salt16)))
                       (DIGEST Sample.passphrase)
                       (Sample.proc (Some (Sample.ctx512 Sample.salt16)))).
Proof.
  apply (proj1 (C7_attach_twice
                  (Sample.proc (Some (Sample.ctx512 Sample.salt16))) 0
                  (Sample.main_db (Some (Sample.ctx512 Sample.salt16)))
                  (Sample.ctx512 Sample.salt16)
                  Sample.passphrase (len Sample.passphrase)
                  ltac:(discriminate) eq_refl eq_refl eq_refl
                  ltac:(split; [reflexivity | discriminate]) eq_refl)).
Defined.

(** The statement of C7 fails on that call: attach returns normally and the
    pager no longer holds the context it held. *)
Lemma C7_counterexample :
  exists p',
    sqlite3CodecAttach 0 (Some Sample.passphrase) (len Sample.passphrase)
                       (Sample.proc (Some (Sample.ctx512 Sample.salt16)))
      = Ok (tt, p') /\
    codec_of (p_db (Sample.proc (Some (Sample.ctx512 Sample.salt16)))) 0
      = Some (Sample.ctx512 Sample.salt16) /\
    codec_of (p_db p') 0 <> Some (Sample.ctx512 Sample.salt16).
Proof.
  eexists; split; [|split].
  - apply attach_passphrase with (pDb := Sample.main_db
                                    (Some (Sample.ctx512 Sample.salt16)));
      try reflexivity; try (vm_compute; discriminate).
    split; [reflexivity | vm_compute; discriminate].
  - reflexivity.
  - vm_compute. discriminate.
Qed.

(** C8 on the sample: a read of page 1 stores the salt found on disk, a
    read of page 2 leaves the salt alone. *)
Lemma C8_salt_updates_witness :
  (exists ptr m',
     sqlite3Codec 1 0 (Sample.mem512 Sample.salt16 Sample.disk1)
       = Ok (ptr, m') /\
     rand (m_ctx m') = Sample.salt16') /\
  (forall ptr m',
     sqlite3Codec 2 0 (Sample.mem512 Sample.salt16 Sample.plain2)
       = Ok (ptr, m') ->
     rand (m_ctx m') = Sample.salt16).
Proof.
  split.
  - apply (proj2 (C8_salt_updates
                    (Sample.mem512 Sample.salt16 Sample.disk1) 1 0)
                 (sample_well_formed Sample.salt16 Sample.disk1
                                     eq_refl eq_refl)
                 (sample_page_fits 1 Sample.salt16 Sample.disk1)).
  - intros ptr m' H.
    apply (proj1 (C8_salt_updates
                    (Sample.mem512 Sample.salt16 Sample.plain2) 2 0)
                 ptr m' H).
    left; discriminate.
Defined.

(** The statement of C8 fails: after page 1 has been written under the salt
    [salt16], a read of a page 1 that starts with other bytes changes the
    salt of the context. *)
Lemma C8_counterexample :
  exists m1 m2,
    sqlite3Codec 1 6 (Sample.mem512 Sample.salt16 Sample.plain1)
      = Ok ((CtxBuffer, 0), m1) /\
    sqlite3Codec 1 0 (set_region PData Sample.disk1 m1)
      = Ok ((PData, 0), m2) /\
    rand (m_ctx m1) = Sample.salt16 /\
    rand (m_ctx m2) <> rand (m_ctx m1).
Proof.
  eexists; eexists; split; [|split; [|split]].
  - apply sqlite3Codec_encrypt_page1;
      [reflexivity | apply sample_well_formed; reflexivity
      | apply sample_page_fits].
  - apply sqlite3Codec_decrypt_page1.
    + reflexivity.
    + repeat split; vm_compute; reflexivity.
    + split; reflexivity.
  - reflexivity.
  - vm_compute. discriminate.
Qed.

(** C9 on the sample: a rekey with a passphrase returns, the notice is on
    the standard output, the main database holds a context keyed by the
    digest of the passphrase, and the pages of the files are untouched. *)
Lemma C9_rekey_in_memory_only_witness :
  exists p',
    sqlite3_rekey true (Some Sample.passphrase) (len Sample.passphrase)
                  (Sample.proc (Some (Sample.ctx512 Sample.salt16)))
      = Ok (tt, p') /\
    p_stdout p' = [rekey_notice] /\
    option_map key (codec_of (p_db p') 0) = Some (DIGEST Sample.passphrase) /\
    files (p_db p') = files (Sample.conn (Some (Sample.ctx512 Sample.salt16))).
Proof.
  destruct (C9_rekey_in_memory_only true (Some Sample.passphrase)
              (len Sample.passphrase)
              (Sample.proc (Some (Sample.ctx512 Sample.salt16))))
    as [Heq Hfiles].
  eexists; split; [|split; [|split]].
  - rewrite Heq. reflexivity.
  - reflexivity.
  - reflexivity.
  - vm_compute. reflexivity.
Defined.

(** C10 on the sample: mode 5 does nothing, mode 2 reads as mode 0 does. *)
Lemma C10_modes_witness :
  sqlite3Codec 1 5 (Sample.mem512 Sample.salt16 Sample.disk1)
    = Ok ((PData, 0), Sample.mem512 Sample.salt16 Sample.disk1) /\
  sqlite3Codec 1 2 (Sample.mem512 Sample.salt16 Sample.disk1)
    = sqlite3Codec 1 0 (Sample.mem512 Sample.salt16 Sample.disk1).
Proof.
  destruct (C10_modes (Sample.mem512 Sample.salt16 Sample.disk1) 1 5)
    as (Hdefault & (H2 & _ & _) & _).
  split.
  - apply Hdefault. repeat split; discriminate.
  - exact H2.
Defined.

(** * More of crypto.c

    Properties of the same functions that the claims above do not state:
    what a write followed by a read gives, what a transform call keeps,
    where the assertions stop it, and how attaching, [sqlite3_key] and
    [sqlite3CodecGetKey] fit together. *)

(** A page is its first sixteen bytes, the eight that follow and the rest. *)
Lemma page_parts (b : bytes) :
  b = (firstn 16 b ++ skipn 16 (firstn 24 b)) ++ skipn 24 b.
Proof.
  rewrite <- (firstn_skipn 24 b) at 1. f_equal.
  rewrite <- (firstn_skipn 16 (firstn 24 b)) at 1. f_equal.
  rewrite firstn_firstn. reflexivity.
Qed.

Section Coverage.
Context {Sch : Scheme}.
Context {Laws : SchemeLaws Sch}.

Local Abbreviation bs := EVP_CIPHER_block_size.

(** X1.  A page other than page 1 that is written and read back comes back
    as it was: if an encrypt call leaves its result in the scratch buffer,
    a decrypt call for the same page number on those bytes, in any context
    with the same key, salt and page size, leaves the original page in the
    buffer of the caller. *)
Theorem X1_page_write_read (m : memory) (pgno wmode rmode : Z) :
  switch_mode wmode = Some true -> switch_mode rmode = Some false ->
  pgno <> 1 -> well_formed m -> page_fits pgno m ->
  exists m1,
    sqlite3Codec pgno wmode m = Ok ((CtxBuffer, 0), m1) /\
    forall m',
      well_formed m' ->
      key (m_ctx m') = key (m_ctx m) -> rand (m_ctx m') = rand (m_ctx m) ->
      pBt (m_ctx m') = pBt (m_ctx m) ->
      m_pData m' = buffer (m_ctx m1) ->
      exists m2,
        sqlite3Codec pgno rmode m' = Ok ((PData, 0), m2) /\
        m_pData m2 = m_pData m.
Proof.
  intros Hw Hr Hpg Hwf Hfit.
  pose proof Hwf as (Hk & Hs & Hb & Hp).
  eexists; split; [apply sqlite3Codec_encrypt_page; assumption|].
  proj_mem. intros m' Hwf' Ek Es Eb Ep.
  assert (Hfit' : page_fits pgno m') by (unfold page_fits; rewrite Eb; exact Hfit).
  eexists; split; [apply sqlite3Codec_decrypt_page; assumption|].
  proj_mem. rewrite Ek, Es, Ep.
  unfold page_fits in Hfit. apply Z.eqb_neq in Hpg. rewrite Hpg in Hfit.
  destruct Hfit as [_ Hmod].
  apply transform_round_trip.
  - exact Hk.
  - apply DIGEST_covers_iv.
  - rewrite Hp. exact Hmod.
Qed.

(** X2.  Page 1 written by one context is read back by another that only
    shares the key: when the page starts with the sixteen bytes of
    [SQLITE_FILE_HEADER], as a database's first page does, the decrypt call
    gives the caller the original page and leaves the writer's salt in the
    reading context, whatever salt that context held before. *)
Theorem X2_page1_write_read (m : memory) (wmode rmode : Z) :
  switch_mode wmode = Some true -> switch_mode rmode = Some false ->
  well_formed m -> page_fits 1 m ->
  firstn 16 (m_pData m) = firstn 16 SQLITE_FILE_HEADER ->
  exists m1,
    sqlite3Codec 1 wmode m = Ok ((CtxBuffer, 0), m1) /\
    forall m',
      well_formed m' ->
      key (m_ctx m') = key (m_ctx m) -> pBt (m_ctx m') = pBt (m_ctx m) ->
      m_pData m' = buffer (m_ctx m1) ->
      exists m2,
        sqlite3Codec 1 rmode m' = Ok ((PData, 0), m2) /\
        m_pData m2 = m_pData m /\
        rand (m_ctx m2) = rand (m_ctx m).
Proof.
  intros Hw Hr Hwf Hfit Hmagic.
  pose proof Hwf as (Hk & Hs & Hb & Hp).
  pose proof Hfit as [Hpos Hmod]. cbn [Z.eqb Pos.eqb] in Hpos, Hmod.
  unfold HDR_SZ in Hpos, Hmod.
  destruct (header_tail (m_pData m)) as [Hl8 _]; [lia|].
  eexists; split; [apply sqlite3Codec_encrypt_page1; assumption|].
  proj_mem. intros m' Hwf' Ek Eb Ep.
  assert (Hfit' : page_fits 1 m') by (unfold page_fits; rewrite Eb; exact Hfit).
  eexists; split; [apply sqlite3Codec_decrypt_page1; assumption|].
  proj_mem. rewrite Ek, Ep.
  set (T := transform (key (m_ctx m)) (derive_iv (rand (m_ctx m)) 1) true
                      (skipn 24 (m_pData m))).
  destruct (page1_parts (rand (m_ctx m)) (skipn 16 (firstn 24 (m_pData m))) T)
    as (P1 & P2 & P3); [unfold len in Hs; lia | exact Hl8 |].
  assert (P4 : skipn 16 (firstn 24
                 ((rand (m_ctx m) ++ skipn 16 (firstn 24 (m_pData m))) ++ T))
               = skipn 16 (firstn 24 (m_pData m))).
  { rewrite skipn_firstn_comm. exact P2. }
  rewrite P1, P3, P4. split; [|reflexivity].
  subst T. rewrite transform_round_trip.
  - rewrite <- Hmagic. symmetry. apply page_parts.
  - exact Hk.
  - apply DIGEST_covers_iv.
  - rewrite (len_skipn 24) by lia. rewrite Hp. exact Hmod.
Qed.

(** X3.  What an encrypt of page 1 leaves in the scratch buffer does not
    depend on bytes 0-15 of the page: two pages of the page size that agree
    from byte 16 on give the same image, so these sixteen bytes are not
    stored in the file. *)
Theorem X3_page1_image_drops_magic (m : memory) (mode : Z) (page' : bytes) :
  switch_mode mode = Some true -> well_formed m -> page_fits 1 m ->
  len page' = len (m_pData m) ->
  skipn 16 page' = skipn 16 (m_pData m) ->
  exists m1 m2,
    sqlite3Codec 1 mode m = Ok ((CtxBuffer, 0), m1) /\
    sqlite3Codec 1 mode (set_region PData page' m) = Ok ((CtxBuffer, 0), m2) /\
    buffer (m_ctx m2) = buffer (m_ctx m1).
Proof.
  intros Hmode Hwf Hfit Hlen Htail.
  pose proof Hwf as (Hk & Hs & Hb & Hp).
  assert (Hwf' : well_formed (set_region PData page' m)).
  { repeat split; proj_mem; try assumption. rewrite Hlen; exact Hp. }
  eexists; eexists; split; [|split].
  - apply sqlite3Codec_encrypt_page1; assumption.
  - apply sqlite3Codec_encrypt_page1; assumption.
  - proj_mem.
    assert (E1 : skipn 16 (firstn 24 page')
                 = skipn 16 (firstn 24 (m_pData m)))
      by (rewrite !skipn_firstn_comm, Htail; reflexivity).
    assert (E2 : skipn 24 page' = skipn 24 (m_pData m)).
    { change 24%nat with (8 + 16)%nat. rewrite <- !skipn_skipn, Htail.
      reflexivity. }
    rewrite E1, E2. reflexivity.
Qed.

(** ** The shape of the memory *)

Lemma write_len (b : bytes) (off : Z) (d b' : bytes) :
  write b off d = Ok b' -> len b' = len b.
Proof.
  unfold write.
  destruct (Z.leb_spec 0 off) as [H0|H0]; [|discriminate].
  destruct (Z.leb_spec (off + len d) (len b)) as [H1|H1]; [|discriminate].
  cbn [andb]. intros E; inversion E; subst; clear E.
  pose proof (len_nonneg d).
  rewrite !len_app, len_firstn, len_skipn by lia. lia.
Qed.

Lemma same_shape_refl (m : memory) : same_shape m m.
Proof. repeat split. Qed.

Lemma same_shape_trans (m1 m2 m3 : memory) :
  same_shape m1 m2 -> same_shape m2 m3 -> same_shape m1 m3.
Proof.
  intros (A1 & A2 & A3 & A4 & A5 & A6) (B1 & B2 & B3 & B4 & B5 & B6).
  repeat split; congruence.
Qed.

Lemma store_same_shape (ptr : pointer) (d : bytes) (m m' : memory) (u : unit) :
  store ptr d m = Ok (u, m') -> same_shape m m'.
Proof.
  unfold store; intros H.
  unbind H as b s Hb. apply gets_inv in Hb as [-> ->].
  unbind H as b' s' Hb'. apply lift_inv in Hb' as [Hw ->].
  apply modify_inv in H. subst m'. apply write_len in Hw.
  destruct ptr as [[| |] off]; cbn [fst region_bytes] in Hw;
    repeat split; proj_mem; try reflexivity; exact Hw.
Qed.

Lemma memcpy_same_shape (dst src : pointer) (n : Z) (m m' : memory)
  (u : unit) :
  memcpy dst src n m = Ok (u, m') -> same_shape m m'.
Proof.
  unfold memcpy; intros H. unbind H as d s Hd.
  apply load_inv in Hd; subst s.
  eapply store_same_shape; eassumption.
Qed.

Lemma memcpy_const_same_shape (dst : pointer) (src : bytes) (n : Z)
  (m m' : memory) (u : unit) :
  memcpy_const dst src n m = Ok (u, m') -> same_shape m m'.
Proof.
  unfold memcpy_const; intros H. unbind H as d s Hd.
  apply lift_inv in Hd as [_ ->].
  eapply store_same_shape; eassumption.
Qed.

Lemma codec_cipher_same_shape (pgno : Z) (mode : bool) (size : Z)
  (in_ out : pointer) (m m' : memory) (u : unit) :
  codec_cipher pgno mode size in_ out m = Ok (u, m') -> same_shape m m'.
Proof.
  unfold codec_cipher; intros H.
  unbind H as ctx s0 H0. apply gets_inv in H0 as [-> ->].
  unbind H as iv s1 H1. destruct iv as [iv iv_sz].
  apply lift_inv in H1 as [_ ->].
  unbind H as ectx s2 H2. apply lift_inv in H2 as [_ ->].
  unbind H as src s3 H3. apply gets_inv in H3 as [-> ->].
  unbind H as upd s4 H4. destruct upd as [[produced tmp_csz] ectx'].
  apply lift_inv in H4 as [_ ->].
  unbind H as u5 s5 H5. apply store_same_shape in H5.
  unbind H as u6 s6 H6. apply modify_inv in H6. subst s6.
  apply assert_inv in H as [_ ->].
  exact H5.
Qed.

Lemma sqlite3Codec_same_shape (pgno mode : Z) (m m' : memory) (ptr : pointer) :
  sqlite3Codec pgno mode m = Ok (ptr, m') -> same_shape m m'.
Proof.
  unfold sqlite3Codec; intros H.
  unbind H as ctx s0 H0. apply gets_inv in H0 as [-> ->].
  destruct (switch_mode mode) as [emode|];
    [|inversion H; apply same_shape_refl].
  unbind H as u1 s1 H1.
  assert (Hs1 : same_shape m s1).
  { destruct (pgno =? 1).
    - unbind H1 as u2 s2 H2. apply memcpy_same_shape in H2.
      unbind H1 as u3 s3 H3.
      apply codec_cipher_same_shape in H1.
      apply same_shape_trans with s2; [exact H2|].
      apply same_shape_trans with s3; [|exact H1].
      destruct emode.
      + eapply memcpy_same_shape; eassumption.
      + unbind H3 as u4 s4 H4. apply memcpy_same_shape in H4.
        apply memcpy_const_same_shape in H3.
        apply same_shape_trans with s4; assumption.
    - eapply codec_cipher_same_shape; eassumption. }
  destruct emode.
  - inversion H; subst; exact Hs1.
  - unbind H as u2 s2 H2. apply memcpy_same_shape in H2.
    inversion H; subst. apply same_shape_trans with s1; assumption.
Qed.

(** X4.  A transform call that returns has kept the key, its size and the
    b-tree pointer of the context, and the lengths of the salt, of the
    scratch buffer and of the page of the caller; so a memory that is well
    formed for the codec is well formed after the call, and the next call
    finds what it needs.  On a well formed memory whose page fills whole
    cipher blocks the call does return. *)
Theorem X4_transform_keeps_shape (m : memory) (pgno mode : Z) :
  (forall ptr m',
     sqlite3Codec pgno mode m = Ok (ptr, m') ->
     same_shape m m' /\ (well_formed m -> well_formed m')) /\
  (well_formed m -> page_fits pgno m ->
   exists ptr m', sqlite3Codec pgno mode m = Ok (ptr, m')).
Proof.
  split.
  - intros ptr m' H. apply sqlite3Codec_same_shape in H.
    split; [exact H|].
    destruct H as (A1 & A2 & A3 & A4 & A5 & A6).
    intros (Hk & Hs & Hb & Hp). repeat split; congruence.
  - intros Hwf Hfit.
    destruct (switch_mode mode) as [[|]|] eqn:Hmode.
    + destruct (Z.eq_dec pgno 1) as [->|Hpg]; eexists; eexists;
        [apply sqlite3Codec_encrypt_page1 | apply sqlite3Codec_encrypt_page];
        assumption.
    + destruct (Z.eq_dec pgno 1) as [->|Hpg]; eexists; eexists;
        [apply sqlite3Codec_decrypt_page1 | apply sqlite3Codec_decrypt_page];
        assumption.
    + exists (PData, 0), m.
      unfold sqlite3Codec, bind, gets. rewrite Hmode. reflexivity.
Qed.

(** ** The assertion of [codec_cipher] *)

Lemma len_cipher_blocks (mode : bool) (n : nat) (k prev d : bytes) :
  len k = EVP_CIPHER_key_length -> len prev = bs ->
  Z.of_nat n * bs <= len d ->
  len ((if mode then cbc_encrypt else cbc_decrypt) n k prev d)
  = Z.of_nat n * bs.
Proof.
  destruct mode; [apply len_cbc_encrypt | apply len_cbc_decrypt].
Qed.

(** With bytes left over after the last whole block, [EVP_CipherFinal]
    fails, the count [csz] is not [size], and the assertion stops the
    call. *)
Lemma codec_cipher_partial_block (m : memory) (pgno : Z) (mode : bool)
  (size : Z) (r : region) (off_in off_out : Z) (p d a c : bytes) :
  len (key (m_ctx m)) = EVP_CIPHER_key_length ->
  len (rand (m_ctx m)) = 16 ->
  region_bytes r m = p ++ d -> buffer (m_ctx m) = a ++ c ->
  len p = off_in -> len a = off_out ->
  len d = size -> len c = size -> 0 < size -> size mod bs <> 0 ->
  codec_cipher pgno mode size (r, off_in) (CtxBuffer, off_out) m
  = Crash AssertionFailed.
Proof.
  intros Hk Hr Hin Hout <- <- Hd Hc Hsz Hmod.
  pose proof block_size_pos as Hbs.
  pose proof (DIGEST_covers_iv (rand (m_ctx m) ++ Pgno_bytes pgno)) as Hiv.
  fold (derive_iv (rand (m_ctx m)) pgno) in Hiv.
  assert (Hnz : bs <> 0) by lia.
  pose proof (Z.div_mod size bs Hnz) as Hdm.
  pose proof (Z.mod_pos_bound size bs Hbs) as Hrem.
  assert (Hq : 0 <= size / bs) by (apply Z.div_pos; lia).
  unfold codec_cipher.
  run ltac:(reflexivity).
  run_lift ltac:(rewrite codec_page_hash_eq by lia;
                 rewrite <- Hr, firstn_len; reflexivity).
  run_lift ltac:(unfold EVP_CipherInit; rewrite <- Hk, read_whole;
                 cbn [rbind]; rewrite read_ok by lia; reflexivity).
  run ltac:(unfold gets; cbn [fst snd]; rewrite Hin, skipn_len_app;
            reflexivity).
  run_lift ltac:(unfold EVP_CipherUpdate;
                 destruct (Z.leb_spec size 0); [lia|];
                 rewrite <- Hd at 1; rewrite read_whole; reflexivity).
  cbn [ectx_encrypt ectx_key ectx_iv ectx_buf_len skipn Z.to_nat].
  set (produced := (if mode then cbc_encrypt else cbc_decrypt)
                     (Z.to_nat (size / bs)) (key (m_ctx m))
                     (firstn (Z.to_nat bs)
                             (derive_iv (rand (m_ctx m)) pgno)) d).
  assert (Hlen : len produced = size / bs * bs).
  { subst produced. rewrite len_cipher_blocks; try assumption.
    - rewrite Z2Nat.id by lia. reflexivity.
    - apply len_firstn; lia.
    - rewrite Z2Nat.id by lia. lia. }
  run ltac:(apply store_ok; cbn [fst snd region_bytes];
            apply write_ok;
            [ apply len_nonneg
            | rewrite Hout, len_app; lia ]).
  run ltac:(reflexivity).
  unfold EVP_CipherFinal. cbn [ectx_buf_len].
  destruct (Z.eqb_spec (size mod bs) 0) as [E|_]; [contradiction|].
  destruct (Z.eqb_spec size (size / bs * bs + size / bs * bs)) as [E|_];
    [|reflexivity].
  exfalso.
  assert (E' : size / bs * bs = size mod bs) by lia.
  destruct (Z.eq_dec (size / bs) 0) as [Z0|NZ]; [rewrite Z0 in E'; lia|].
  assert (1 <= size / bs) by lia. nia.
Qed.

(** X5.  A transform call whose cipher input does not fill whole blocks
    (the page, or for page 1 the page less its 24 byte header) does not
    return: the assertion [size == csz] of [codec_cipher] stops it, in
    either direction. *)
Theorem X5_partial_block_stops (m : memory) (pgno mode : Z) (emode : bool) :
  switch_mode mode = Some emode -> well_formed m ->
  0 < cipher_size pgno m -> cipher_size pgno m mod bs <> 0 ->
  sqlite3Codec pgno mode m = Crash AssertionFailed.
Proof.
  intros Hmode (Hk & Hs & Hb & Hp) Hpos Hmod.
  pose proof SQLITE_FILE_HEADER_length as Hh.
  unfold cipher_size in Hpos, Hmod. unfold sqlite3Codec.
  run ltac:(reflexivity).
  rewrite Hmode. apply bind_crash.
  set (pg_sz := sqlite3BtreeGetPageSize (pBt (m_ctx m))) in *.
  destruct (Z.eqb_spec pgno 1) as [->|Hpg]; unfold HDR_SZ in *.
  - run ltac:(apply memcpy_front; bounds).
    destruct emode.
    + run ltac:(apply memcpy_front; bounds).
      norm_mem.
      rewrite (firstn16 _ Hs), overwrite16 by (apply length_firstn24; lia).
      apply codec_cipher_partial_block
        with (p := firstn 24 (m_pData m)) (d := skipn 24 (m_pData m))
             (a := rand (m_ctx m) ++ skipn 16 (firstn 24 (m_pData m)))
             (c := skipn 24 (buffer (m_ctx m))); norm_mem;
        try assumption; try reflexivity.
      * symmetry; apply firstn_skipn.
      * apply (len_firstn 24); lia.
      * rewrite len_app, Hs. unfold len.
        rewrite length_skipn, length_firstn24 by lia. reflexivity.
      * rewrite (len_skipn 24); lia.
      * rewrite (len_skipn 24); lia.
    + run ltac:(run ltac:(apply memcpy_front; bounds);
                apply memcpy_const_front; bounds).
      norm_mem.
      rewrite (skipn16 _ Hs), app_nil_r.
      rewrite overwrite16 by (apply length_firstn24; lia).
      apply codec_cipher_partial_block
        with (p := firstn 24 (m_pData m)) (d := skipn 24 (m_pData m))
             (a := firstn 16 SQLITE_FILE_HEADER
                   ++ skipn 16 (firstn 24 (m_pData m)))
             (c := skipn 24 (buffer (m_ctx m))); norm_mem;
        try assumption; try reflexivity.
      * apply len_firstn16; lia.
      * symmetry; apply firstn_skipn.
      * apply (len_firstn 24); lia.
      * rewrite len_app, len_firstn16 by lia. unfold len.
        rewrite length_skipn, length_firstn24 by lia. reflexivity.
      * rewrite (len_skipn 24); lia.
      * rewrite (len_skipn 24); lia.
  - apply codec_cipher_partial_block
      with (p := []) (d := m_pData m) (a := []) (c := buffer (m_ctx m));
      try assumption; reflexivity.
Qed.

(** ** Attaching without a key, and with a digest of the wrong length *)

Lemma attach_no_key (nDb : Z) (zKey : option bytes) (nKey : Z) (p : process) :
  zKey = None \/ nKey = 0 ->
  sqlite3CodecAttach nDb zKey nKey p = Ok (tt, p).
Proof.
  intros [-> | ->]; unfold sqlite3CodecAttach;
    [reflexivity | destruct zKey; reflexivity].
Qed.

Lemma attach_null_db (nDb : Z) (zKey : option bytes) (nKey : Z) (p : process) :
  0 <= nDb -> nth_error (aDb (p_db p)) (Z.to_nat nDb) = Some None ->
  sqlite3CodecAttach nDb zKey nKey p = Ok (tt, p).
Proof.
  intros H0 Hdb. unfold sqlite3CodecAttach.
  destruct zKey as [zKey|]; [|reflexivity].
  destruct (nKey =? 0); [reflexivity|].
  run ltac:(reflexivity).
  run_lift ltac:(apply lookup_db; [exact H0 | exact Hdb]).
  reflexivity.
Qed.

Lemma key_loop_no_key (todo : nat) (i : Z) (pKey : option bytes) (nKey : Z)
  (p : process) :
  pKey = None \/ nKey = 0 ->
  sqlite3_key_loop todo i pKey nKey p = Ok (tt, p).
Proof.
  intros H. revert i; induction todo as [|todo IH]; intros i.
  - reflexivity.
  - cbn [sqlite3_key_loop].
    run ltac:(apply attach_no_key; exact H).
    apply IH.
Qed.

(** X6.  [sqlite3_key] with a null connection, a null key or a key of
    length 0 changes nothing, whatever the connection holds: no context is
    built, none that is attached is removed, and no random byte is drawn.
    A key cannot be cleared this way. *)
Theorem X6_key_without_key (db : bool) (pKey : option bytes) (nKey : Z)
  (p : process) :
  db = false \/ pKey = None \/ nKey = 0 ->
  sqlite3_key db pKey nKey p = Ok (tt, p).
Proof.
  intros [-> | H]; [reflexivity|].
  unfold sqlite3_key. destruct db; [|reflexivity].
  run ltac:(reflexivity).
  apply key_loop_no_key. exact H.
Qed.

Lemma write_crash (b : bytes) (off : Z) (d : bytes) :
  len b < off + len d -> write b off d = Crash OutOfBounds.
Proof.
  intros H. unfold write.
  destruct (Z.leb_spec (off + len d) (len b)); [lia|].
  rewrite andb_false_r. reflexivity.
Qed.

Lemma len_sqlite3_malloc (n : Z) : 0 <= n -> len (sqlite3_malloc n) = n.
Proof.
  intros H. unfold sqlite3_malloc, len. rewrite repeat_length. lia.
Qed.

(** X7.  A passphrase attach needs the digest to be as long as the key of
    the cipher, and checks it too late: a longer digest is copied past the
    end of the key buffer by [codec_passphrase_hash] before the assertion
    is reached, a shorter one trips the assertion.  In neither case does
    attach return. *)
Theorem X7_digest_length_mismatch (p : process) (nDb : Z) (pDb : Db)
  (zKey : bytes) (nKey : Z) :
  starts_blob_literal zKey = false -> 0 < nKey <= len zKey -> 0 <= nDb ->
  nth_error (aDb (p_db p)) (Z.to_nat nDb) = Some (Some pDb) ->
  len (DIGEST (firstn (Z.to_nat nKey) zKey)) <> EVP_CIPHER_key_length ->
  sqlite3CodecAttach nDb (Some zKey) nKey p
  = Crash (if EVP_CIPHER_key_length
              <? len (DIGEST (firstn (Z.to_nat nKey) zKey))
           then OutOfBounds else AssertionFailed).
Proof.
  intros Hlit Hn H0 Hdb Hlen. unfold sqlite3CodecAttach.
  pose proof key_length_nonneg as Hkl.
  destruct (Z.eqb_spec nKey 0); [lia|].
  run ltac:(reflexivity).
  run_lift ltac:(apply lookup_db; [exact H0 | exact Hdb]).
  run ltac:(apply RAND_pseudo_bytes_ok).
  rewrite Hlit. apply bind_crash.
  run_lift ltac:(unfold codec_passphrase_hash, EVP_DigestUpdate,
                   EVP_DigestInit_ex;
                 rewrite read_ok by lia; reflexivity).
  cbn [skipn Z.to_nat app].
  set (md := DIGEST (firstn (Z.to_nat nKey) zKey)) in *.
  destruct (Z.ltb_spec EVP_CIPHER_key_length (len md)) as [Hlong|Hshort].
  - apply bind_crash. unfold lift.
    rewrite write_crash by (rewrite len_sqlite3_malloc; lia).
    reflexivity.
  - run_lift ltac:(apply write_front; rewrite len_sqlite3_malloc; lia).
    apply bind_crash. unfold assert.
    destruct (Z.eqb_spec (len md) EVP_CIPHER_key_length);
      [contradiction | reflexivity].
Qed.

(** ** [sqlite3_key] over the databases of a connection *)

Lemma length_update_nth {A} (n : nat) (x : A) (l : list A) :
  (n < length l)%nat -> length (update_nth n x l) = length l.
Proof.
  intros H. unfold update_nth.
  rewrite length_app, length_firstn. cbn [length].
  rewrite length_skipn. lia.
Qed.

Lemma nth_error_update_nth_other {A} (n j : nat) (x : A) (l : list A) :
  (n < length l)%nat -> j <> n ->
  nth_error (update_nth n x l) j = nth_error l j.
Proof.
  intros Hn Hj. unfold update_nth.
  destruct (Nat.lt_ge_cases j n) as [Hlt|Hge].
  - rewrite nth_error_app1 by (rewrite length_firstn; lia).
    rewrite nth_error_firstn.
    destruct (Nat.ltb_spec j n); [reflexivity | lia].
  - rewrite nth_error_app2 by (rewrite length_firstn; lia).
    rewrite length_firstn.
    replace (Nat.min n (length l)) with n by lia.
    destruct (j - n)%nat as [|k] eqn:E; [lia|].
    cbn [nth_error]. rewrite nth_error_skipn. f_equal. lia.
Qed.

(** The entry of a database after a passphrase attach: the b-tree and the
    pages it had, and a context keyed by [k]. *)
Lemma key_loop_attaches (zKey : bytes) (nKey : Z) (todo i : nat)
  (p : process) :
  starts_blob_literal zKey = false -> 0 < nKey <= len zKey ->
  len (DIGEST (firstn (Z.to_nat nKey) zKey)) = EVP_CIPHER_key_length ->
  (i + todo = length (aDb (p_db p)))%nat ->
  exists p',
    sqlite3_key_loop todo (Z.of_nat i) (Some zKey) nKey p = Ok (tt, p') /\
    length (aDb (p_db p')) = length (aDb (p_db p)) /\
    (forall j, (j < i)%nat ->
       nth_error (aDb (p_db p')) j = nth_error (aDb (p_db p)) j) /\
    (forall j, (i <= j)%nat ->
       match nth_error (aDb (p_db p)) j with
       | Some (Some pDb) =>
           exists salt,
             length salt = 16%nat /\
             nth_error (aDb (p_db p')) j
             = Some (Some {| db_Bt := db_Bt pDb;
                             db_Pager :=
                               sqlite3pager_set_codec (db_Pager pDb)
                                 (fresh_ctx pDb
                                    (DIGEST (firstn (Z.to_nat nKey) zKey))
                                    salt) |})
       | other => nth_error (aDb (p_db p')) j = other
       end).
Proof.
  intros Hlit Hn Hlen. revert i p.
  induction todo as [|todo IH]; intros i p Hi.
  - exists p. split; [reflexivity|]. split; [reflexivity|].
    split; [reflexivity|]. intros j Hj.
    rewrite (proj2 (nth_error_None (aDb (p_db p)) j)) by lia. reflexivity.
  - cbn [sqlite3_key_loop].
    replace (Z.of_nat i + 1) with (Z.of_nat (S i)) by lia.
    destruct (nth_error (aDb (p_db p)) i) as [e|] eqn:Ei;
      [|apply nth_error_None in Ei; lia].
    assert (Hlt : (i < length (aDb (p_db p)))%nat) by lia.
    destruct e as [pDb|].
    + (* an open database: a context is attached *)
      set (k := DIGEST (firstn (Z.to_nat nKey) zKey)) in *.
      destruct (IH (S i) (attached (Z.of_nat i) pDb k p))
        as (p' & Hrun & Hl & Hbefore & Hafter).
      { unfold attached; cbn [p_db aDb]. rewrite Nat2Z.id.
        rewrite length_update_nth by exact Hlt. lia. }
      unfold attached in Hl, Hbefore, Hafter.
      cbn [p_db aDb] in Hl, Hbefore, Hafter.
      rewrite Nat2Z.id in Hl, Hbefore, Hafter.
      rewrite length_update_nth in Hl by exact Hlt.
      exists p'. split; [|split; [exact Hl|split]].
      * run ltac:(apply attach_passphrase with (pDb := pDb);
                  [ exact Hlit | exact Hn | lia
                  | rewrite Nat2Z.id; exact Ei | exact Hlen ]).
        exact Hrun.
      * intros j Hj. rewrite Hbefore by lia.
        apply nth_error_update_nth_other; [exact Hlt | lia].
      * intros j Hj. destruct (Nat.eq_dec j i) as [->|Hne].
        -- rewrite Ei. rewrite Hbefore by lia.
           rewrite nth_error_update_nth by exact Hlt.
           eexists; split; [|reflexivity].
           rewrite length_map, length_seq. reflexivity.
        -- specialize (Hafter j ltac:(lia)).
           rewrite nth_error_update_nth_other in Hafter
             by (try exact Hlt; lia).
           exact Hafter.
    + (* [pBt] is null: nothing happens *)
      destruct (IH (S i) p) as (p' & Hrun & Hl & Hbefore & Hafter);
        [lia|].
      exists p'. split; [|split; [exact Hl|split]].
      * run ltac:(apply attach_null_db;
                  [lia | rewrite Nat2Z.id; exact Ei]).
        exact Hrun.
      * intros j Hj. apply Hbefore; lia.
      * intros j Hj. destruct (Nat.eq_dec j i) as [->|Hne].
        -- rewrite Ei. rewrite Hbefore by lia. exact Ei.
        -- apply Hafter; lia.
Qed.

(** X8.  [sqlite3_key] with a passphrase whose digest has the key length
    returns, and has then attached to every open database of the
    connection a context keyed by the digest of the passphrase, with the
    b-tree of that database and a salt of sixteen bytes; a context that was
    attached before is replaced, entries whose [pBt] is null stay as they
    are, and the number of databases is the same. *)
Theorem X8_key_every_database (p : process) (zKey : bytes) (nKey : Z) :
  starts_blob_literal zKey = false -> 0 < nKey <= len zKey ->
  len (DIGEST (firstn (Z.to_nat nKey) zKey)) = EVP_CIPHER_key_length ->
  exists p',
    sqlite3_key true (Some zKey) nKey p = Ok (tt, p') /\
    nDb (p_db p') = nDb (p_db p) /\
    forall i : nat,
      match nth_error (aDb (p_db p)) i with
      | Some (Some pDb) =>
          exists c,
            codec_of (p_db p') (Z.of_nat i) = Some c /\
            key c = DIGEST (firstn (Z.to_nat nKey) zKey) /\
            key_sz c = EVP_CIPHER_key_length /\
            pBt c = db_Bt pDb /\ len (rand c) = 16
      | other => nth_error (aDb (p_db p')) i = other
      end.
Proof.
  intros Hlit Hn Hlen.
  destruct (key_loop_attaches zKey nKey (length (aDb (p_db p))) 0 p
              Hlit Hn Hlen eq_refl)
    as (p' & Hrun & Hl & _ & Hafter).
  exists p'. split; [|split].
  - unfold sqlite3_key. run ltac:(reflexivity).
    unfold nDb. rewrite Nat2Z.id. exact Hrun.
  - unfold nDb. rewrite Hl. reflexivity.
  - intros i. specialize (Hafter i ltac:(lia)).
    destruct (nth_error (aDb (p_db p)) i) as [[pDb|]|]; try exact Hafter.
    destruct Hafter as (salt & Hsalt & Hentry).
    eexists. split.
    + unfold codec_of. rewrite Nat2Z.id, Hentry. reflexivity.
    + cbn [fresh_ctx key key_sz pBt rand]. repeat split.
      unfold len. rewrite Hsalt. reflexivity.
Qed.

(** ** Reading the key back, and using the context *)

Lemma nth_error_attached (nDb : Z) (pDb : Db) (e : option Db) (k : bytes)
  (p : process) :
  nth_error (aDb (p_db p)) (Z.to_nat nDb) = Some e ->
  nth_error (aDb (p_db (attached nDb pDb k p))) (Z.to_nat nDb)
  = Some (Some {| db_Bt := db_Bt pDb;
                  db_Pager :=
                    sqlite3pager_set_codec (db_Pager pDb)
                      (fresh_ctx pDb k
                         (map (p_entropy p) (seq (p_drawn p) 16))) |}).
Proof.
  intros Hn. unfold attached. cbn [p_db aDb].
  apply nth_error_update_nth.
  apply nth_error_Some. rewrite Hn. discriminate.
Qed.

(** X9.  [sqlite3CodecGetKey] hands back what attach stored: after a
    passphrase attach to a database it yields the digest of the passphrase
    and the key length of the cipher, and leaves the process as it is.  On
    an open database that has no context it yields a null key of length 0,
    and where [pBt] is null it stores nothing through its out-pointers. *)
Theorem X9_get_key (p : process) (nDb : Z) (zKey : bytes) (nKey : Z) :
  0 <= nDb ->
  (forall pDb,
     nth_error (aDb (p_db p)) (Z.to_nat nDb) = Some (Some pDb) ->
     starts_blob_literal zKey = false -> 0 < nKey <= len zKey ->
     len (DIGEST (firstn (Z.to_nat nKey) zKey)) = EVP_CIPHER_key_length ->
     exists p',
       sqlite3CodecAttach nDb (Some zKey) nKey p = Ok (tt, p') /\
       sqlite3CodecGetKey nDb p'
       = Ok (Some (Some (DIGEST (firstn (Z.to_nat nKey) zKey)),
                   EVP_CIPHER_key_length), p')) /\
  (forall pDb,
     nth_error (aDb (p_db p)) (Z.to_nat nDb) = Some (Some pDb) ->
     pCodecArg (db_Pager pDb) = None ->
     sqlite3CodecGetKey nDb p = Ok (Some (None, 0), p)) /\
  (nth_error (aDb (p_db p)) (Z.to_nat nDb) = Some None ->
   sqlite3CodecGetKey nDb p = Ok (None, p)).
Proof.
  intros H0. split; [|split].
  - intros pDb Hdb Hlit Hn Hlen.
    eexists; split; [apply attach_passphrase; eassumption|].
    unfold sqlite3CodecGetKey.
    run ltac:(reflexivity).
    run_lift ltac:(apply lookup_db;
                   [exact H0 | apply nth_error_attached with (e := Some pDb);
                               exact Hdb]).
    reflexivity.
  - intros pDb Hdb Hnone. unfold sqlite3CodecGetKey.
    run ltac:(reflexivity).
    run_lift ltac:(apply lookup_db; [exact H0 | exact Hdb]).
    unfold sqlite3pager_get_codec. rewrite Hnone. reflexivity.
  - intros Hdb. unfold sqlite3CodecGetKey.
    run ltac:(reflexivity).
    run_lift ltac:(apply lookup_db; [exact H0 | exact Hdb]).
    reflexivity.
Qed.

(** X10.  The context a passphrase attach builds is ready for the pager:
    with any page of the page size of the database it makes a well formed
    memory, so that a page other than page 1 whose size fills whole cipher
    blocks can be written through it and read back unchanged. *)
Theorem X10_attached_context_serves (p : process) (nDb : Z) (pDb : Db)
  (zKey : bytes) (nKey : Z) (page : bytes) (pgno wmode rmode : Z) :
  starts_blob_literal zKey = false -> 0 < nKey <= len zKey -> 0 <= nDb ->
  nth_error (aDb (p_db p)) (Z.to_nat nDb) = Some (Some pDb) ->
  len (DIGEST (firstn (Z.to_nat nKey) zKey)) = EVP_CIPHER_key_length ->
  len page = sqlite3BtreeGetPageSize (db_Bt pDb) ->
  0 < len page -> len page mod bs = 0 -> pgno <> 1 ->
  switch_mode wmode = Some true -> switch_mode rmode = Some false ->
  exists p' c,
    sqlite3CodecAttach nDb (Some zKey) nKey p = Ok (tt, p') /\
    codec_of (p_db p') nDb = Some c /\
    well_formed (memory_of c page) /\
    exists m1 m2,
      sqlite3Codec pgno wmode (memory_of c page)
        = Ok ((CtxBuffer, 0), m1) /\
      sqlite3Codec pgno rmode (set_region PData (buffer (m_ctx m1)) m1)
        = Ok ((PData, 0), m2) /\
      m_pData m2 = page.
Proof.
  intros Hlit Hn H0 Hdb Hlen Hpage Hpos Hmod Hpg Hw Hr.
  set (k := DIGEST (firstn (Z.to_nat nKey) zKey)) in *.
  set (c := fresh_ctx pDb k (map (p_entropy p) (seq (p_drawn p) 16))).
  exists (attached nDb pDb k p), c.
  assert (Hwf : well_formed (memory_of c page)).
  { split; [|split; [|split]];
      cbn [memory_of m_ctx m_pData c fresh_ctx key rand buffer pBt].
    - exact Hlen.
    - unfold len. rewrite length_map, length_seq. reflexivity.
    - apply len_sqlite3_malloc. unfold sqlite3BtreeGetPageSize in *. lia.
    - exact Hpage. }
  assert (Hfit : page_fits pgno (memory_of c page)).
  { unfold page_fits. apply Z.eqb_neq in Hpg. rewrite Hpg.
    cbn [memory_of m_ctx c fresh_ctx pBt]. rewrite <- Hpage.
    split; assumption. }
  split; [apply attach_passphrase; assumption|].
  split; [apply codec_of_attached with (e := Some pDb); exact Hdb|].
  split; [exact Hwf|].
  pose proof (transform_length k (derive_iv (rand c) pgno) true page
                Hlen (DIGEST_covers_iv _) Hmod) as Hct.
  eexists; eexists; split; [|split].
  - apply sqlite3Codec_encrypt_page; assumption.
  - apply sqlite3Codec_decrypt_page; try assumption.
    destruct Hwf as (W1 & W2 & W3 & W4).
    repeat split; proj_mem; try assumption;
      exact (eq_trans Hct Hpage).
  - proj_mem. cbn [memory_of m_ctx m_pData c fresh_ctx key rand].
    apply transform_round_trip;
      [exact Hlen | apply DIGEST_covers_iv | exact Hmod].
Qed.

End Coverage.

(** * The coverage theorems on the samples *)

Lemma Sample_laws16 : SchemeLaws Sample.scheme16.
Proof.
  constructor; cbn.
  - lia.
  - lia.
  - intros k b Hk Hb. unfold len in *.
    rewrite length_rev, length_xor_bytes, length_app. lia.
  - intros k c Hk Hc. unfold len in *.
    rewrite length_xor_bytes, length_rev, length_app. lia.
  - intros k b Hk Hb. rewrite rev_involutive.
    apply xor_bytes_cancel. unfold len in *. rewrite length_app. lia.
  - intros m. unfold Sample.digest16, Sample.digest8, len.
    rewrite ?length_app, ?length_map. cbn. lia.
  - vm_compute. discriminate.
Qed.

(** X1 on the sample: page 2 written in mode 6 and read back in mode 3 by
    a context of its own with the same key and salt. *)
Lemma X1_page_write_read_witness :
  exists m1 m2,
    sqlite3Codec 2 6 (Sample.mem512 Sample.salt16 Sample.plain2)
      = Ok ((CtxBuffer, 0), m1) /\
    sqlite3Codec 2 3 (Sample.mem512 Sample.salt16 (buffer (m_ctx m1)))
      = Ok ((PData, 0), m2) /\
    m_pData m2 = Sample.plain2.
Proof.
  destruct (X1_page_write_read
              (Sample.mem512 Sample.salt16 Sample.plain2) 2 6 3)
    as (m1 & H1 & Hback).
  - reflexivity.
  - reflexivity.
  - discriminate.
  - apply sample_well_formed; reflexivity.
  - apply sample_page_fits.
  - pose proof (sqlite3Codec_same_shape _ _ _ _ _ H1)
      as (_ & _ & _ & _ & Hbuf & _).
    destruct (Hback (Sample.mem512 Sample.salt16 (buffer (m_ctx m1))))
      as (m2 & H2 & Hpage).
    + apply sample_well_formed; [reflexivity | exact Hbuf].
    + reflexivity.
    + reflexivity.
    + reflexivity.
    + reflexivity.
    + exists m1, m2. repeat split; assumption.
Defined.

(** X2 on the sample: page 1 written under [salt16] and read back by a
    context that held [salt16']. *)
Lemma X2_page1_write_read_witness :
  exists m1 m2,
    sqlite3Codec 1 6 (Sample.mem512 Sample.salt16 Sample.plain1)
      = Ok ((CtxBuffer, 0), m1) /\
    sqlite3Codec 1 0 (Sample.mem512 Sample.salt16' (buffer (m_ctx m1)))
      = Ok ((PData, 0), m2) /\
    m_pData m2 = Sample.plain1 /\
    rand (m_ctx m2) = Sample.salt16.
Proof.
  destruct (X2_page1_write_read
              (Sample.mem512 Sample.salt16 Sample.plain1) 6 0)
    as (m1 & H1 & Hback).
  - reflexivity.
  - reflexivity.
  - apply sample_well_formed; reflexivity.
  - apply sample_page_fits.
  - reflexivity.
  - pose proof (sqlite3Codec_same_shape _ _ _ _ _ H1)
      as (_ & _ & _ & _ & Hbuf & _).
    destruct (Hback (Sample.mem512 Sample.salt16' (buffer (m_ctx m1))))
      as (m2 & H2 & Hpage & Hsalt).
    + apply sample_well_formed; [reflexivity | exact Hbuf].
    + reflexivity.
    + reflexivity.
    + reflexivity.
    + exists m1, m2. repeat split; assumption.
Defined.

(** X3 on the sample: page 1 with its magic string, and the same page with
    sixteen other bytes in front. *)
Lemma X3_page1_image_drops_magic_witness :
  exists m1 m2,
    sqlite3Codec 1 6 (Sample.mem512 Sample.salt16 Sample.plain1)
      = Ok ((CtxBuffer, 0), m1) /\
    sqlite3Codec 1 6
      (Sample.mem512 Sample.salt16
         (Sample.salt16' ++ skipn 16 Sample.plain1))
      = Ok ((CtxBuffer, 0), m2) /\
    buffer (m_ctx m2) = buffer (m_ctx m1).
Proof.
  apply (X3_page1_image_drops_magic
           (Sample.mem512 Sample.salt16 Sample.plain1) 6
           (Sample.salt16' ++ skipn 16 Sample.plain1)).
  - reflexivity.
  - apply sample_well_formed; reflexivity.
  - apply sample_page_fits.
  - reflexivity.
  - reflexivity.
Defined.

(** X4 on the sample: a write of page 2. *)
Lemma X4_transform_keeps_shape_witness :
  exists ptr m',
    sqlite3Codec 2 6 (Sample.mem512 Sample.salt16 Sample.plain2)
      = Ok (ptr, m') /\
    same_shape (Sample.mem512 Sample.salt16 Sample.plain2) m' /\
    well_formed m'.
Proof.
  destruct (X4_transform_keeps_shape
              (Sample.mem512 Sample.salt16 Sample.plain2) 2 6)
    as [Hkeep Hret].
  destruct Hret as (ptr & m' & Hrun).
  - apply sample_well_formed; reflexivity.
  - apply sample_page_fits.
  - destruct (Hkeep ptr m' Hrun) as [Hshape Hwf].
    exists ptr, m'. repeat split.
    + exact Hrun.
    + apply Hshape.
    + apply Hshape.
    + apply Hshape.
    + apply Hshape.
    + apply Hshape.
    + apply Hshape.
    + apply Hwf, sample_well_formed; reflexivity.
    + apply Hwf, sample_well_formed; reflexivity.
    + apply Hwf, sample_well_formed; reflexivity.
    + apply Hwf, sample_well_formed; reflexivity.
Defined.

(** X5 on the sample: with blocks of sixteen bytes, page 1 of a database
    with pages of 512 bytes leaves 488 bytes to the cipher, thirty blocks
    and a half, and the write stops at the assertion. *)
Lemma X5_partial_block_stops_witness :
  sqlite3Codec (Sch := Sample.scheme16) 1 6
    (Sample.mem512 Sample.salt16 Sample.plain1)
  = Crash AssertionFailed.
Proof.
  apply (X5_partial_block_stops (Sch := Sample.scheme16)
           (Laws := Sample_laws16)
           (Sample.mem512 Sample.salt16 Sample.plain1) 1 6 true).
  - reflexivity.
  - repeat split; reflexivity.
  - reflexivity.
  - vm_compute. discriminate.
Defined.

(** X6 on the sample: a null key handed to a connection whose main
    database has a context. *)
Lemma X6_key_without_key_witness :
  sqlite3_key true None 5
    (Sample.proc (Some (Sample.ctx512 Sample.salt16)))
  = Ok (tt, Sample.proc (Some (Sample.ctx512 Sample.salt16))).
Proof.
  apply (X6_key_without_key true None 5
           (Sample.proc (Some (Sample.ctx512 Sample.salt16)))).
  right; left; reflexivity.
Defined.

(** X7 on the sample: a digest of sixteen bytes for a cipher with keys of
    eight bytes. *)
Lemma X7_digest_length_mismatch_witness :
  sqlite3CodecAttach (Sch := Sample.scheme16) 0 (Some Sample.passphrase) 13
    (Sample.proc None)
  = Crash OutOfBounds.
Proof.
  apply (X7_digest_length_mismatch (Sch := Sample.scheme16)
           (Laws := Sample_laws16)
           (Sample.proc None) 0 (Sample.main_db None) Sample.passphrase 13).
  - reflexivity.
  - vm_compute. split; [reflexivity | discriminate].
  - lia.
  - reflexivity.
  - vm_compute. discriminate.
Defined.

(** X8 on the sample: a connection of three databases, the second not
    opened, the third with a context of another key. *)
Lemma X8_key_every_database_witness :
  exists p',
    sqlite3_key true (Some Sample.passphrase) 13 Sample.proc3
      = Ok (tt, p') /\
    nDb (p_db p') = 3 /\
    (exists c,
       codec_of (p_db p') 2 = Some c /\
       key c = Sample.digest8 Sample.passphrase /\
       pBt c = {| pageSize := 1024 |}) /\
    nth_error (aDb (p_db p')) 1 = Some None.
Proof.
  destruct (X8_key_every_database Sample.proc3 Sample.passphrase 13)
    as (p' & Hrun & Hn & Hall).
  - reflexivity.
  - vm_compute. split; [reflexivity | discriminate].
  - reflexivity.
  - exists p'. split; [exact Hrun|]. split; [exact Hn|]. split.
    + destruct (Hall 2%nat) as (c & Hc & Hk & _ & Hbt & _).
      exists c. split; [exact Hc|]. split; [exact Hk | exact Hbt].
    + exact (Hall 1%nat).
Defined.

(** X9 on the sample: the main database, before and after an attach, and
    the temp database that is not opened. *)
Lemma X9_get_key_witness :
  (exists p',
     sqlite3CodecAttach 0 (Some Sample.passphrase) 13 (Sample.proc None)
       = Ok (tt, p') /\
     sqlite3CodecGetKey 0 p'
       = Ok (Some (Some (Sample.digest8 Sample.passphrase), 8), p')) /\
  sqlite3CodecGetKey 0 (Sample.proc None)
    = Ok (Some (None, 0), Sample.proc None) /\
  sqlite3CodecGetKey 1 (Sample.proc None) = Ok (None, Sample.proc None).
Proof.
  destruct (X9_get_key (Sample.proc None) 0 Sample.passphrase 13)
    as (Hafter & Hbefore & _); [lia|].
  destruct (X9_get_key (Sample.proc None) 1 Sample.passphrase 13)
    as (_ & _ & Hnull); [lia|].
  split; [|split].
  - apply (Hafter (Sample.main_db None)).
    + reflexivity.
    + reflexivity.
    + vm_compute. split; [reflexivity | discriminate].
    + reflexivity.
  - apply (Hbefore (Sample.main_db None)); reflexivity.
  - apply Hnull. reflexivity.
Defined.

(** X10 on the sample: attach to the main database, then page 2 written
    and read back through the context that attach built. *)
Lemma X10_attached_context_serves_witness :
  exists p' c m1 m2,
    sqlite3CodecAttach 0 (Some Sample.passphrase) 13 (Sample.proc None)
      = Ok (tt, p') /\
    codec_of (p_db p') 0 = Some c /\
    sqlite3Codec 2 6 (memory_of c Sample.plain2)
      = Ok ((CtxBuffer, 0), m1) /\
    sqlite3Codec 2 3 (set_region PData (buffer (m_ctx m1)) m1)
      = Ok ((PData, 0), m2) /\
    m_pData m2 = Sample.plain2.
Proof.
  destruct (X10_attached_context_serves
              (Sample.proc None) 0 (Sample.main_db None)
              Sample.passphrase 13 Sample.plain2 2 6 3)
    as (p' & c & Hatt & Hc & _ & m1 & m2 & H1 & H2 & Hpage).
  - reflexivity.
  - vm_compute. split; [reflexivity | discriminate].
  - lia.
  - reflexivity.
  - reflexivity.
  - reflexivity.
  - reflexivity.
  - reflexivity.
  - discriminate.
  - reflexivity.
  - reflexivity.
  - exists p', c, m1, m2. repeat split; assumption.
Defined.
